(* Shallow embedding of the order, promo and shipping logic of the
   marketplace backend (models/Order.js, models/Promo.js,
   models/InventoryShipPrice.js and the order controllers).

   Money on orders is modelled as Z (amounts are whole units of the base
   currency); promo and shipping computations, which divide, use Q.
   Order statuses are the strings the code stores. *)

From Stdlib Require Import ZArith QArith String List Bool Lia.
Import ListNotations.
Open Scope string_scope.

Module Order.

Open Scope Z_scope.

(** One line of [items] in orderSchema. *)
Record item := mkItem {
  itemCode : Z;
  qty : Z;
  unitPrice : Z;
  totalCost : Z
}.

(** The fields of an order document the logic reads or writes. *)
Record order := mkOrder {
  leadId : string;
  vendorId : string;
  custUserId : string;
  items : list item;
  totalQty : Z;
  totalAmount : Z;
  promoDiscount : Z;
  orderStatus : string;
  isActive : bool
}.

Definition with_items (o : order) (l : list item) : order :=
  mkOrder (leadId o) (vendorId o) (custUserId o) l (totalQty o) (totalAmount o)
          (promoDiscount o) (orderStatus o) (isActive o).

Definition with_status (o : order) (s : string) : order :=
  mkOrder (leadId o) (vendorId o) (custUserId o) (items o) (totalQty o)
          (totalAmount o) (promoDiscount o) s (isActive o).

Definition with_totals (o : order) (q a : Z) : order :=
  mkOrder (leadId o) (vendorId o) (custUserId o) (items o) q a (promoDiscount o)
          (orderStatus o) (isActive o).

(** [enum] of the [orderStatus] path. *)
Definition orderStatusEnum : list string :=
  ["pending"; "vendor_accepted"; "payment_done"; "order_confirmed";
   "shipped"; "delivered"; "cancelled"].

Definition str_in (s : string) (l : list string) : bool :=
  existsb (String.eqb s) l.

(** Schema validators of a line: [qty] min 1, [unitPrice] and [totalCost] min 0. *)
Definition item_valid (it : item) : bool :=
  (1 <=? qty it) && (0 <=? unitPrice it) && (0 <=? totalCost it).

(** Mongoose validation, run by [save] before the pre('save') hooks. *)
Definition validate (o : order) : bool :=
  forallb item_valid (items o) && (0 <=? totalAmount o) &&
  (0 <=? promoDiscount o) && str_in (orderStatus o) orderStatusEnum.

Definition item_eqb (a b : item) : bool :=
  (itemCode a =? itemCode b) && (qty a =? qty b) &&
  (unitPrice a =? unitPrice b) && (totalCost a =? totalCost b).

Fixpoint items_eqb (l1 l2 : list item) : bool :=
  match l1, l2 with
  | [], [] => true
  | a :: r1, b :: r2 => item_eqb a b && items_eqb r1 r2
  | _, _ => false
  end.

(** [this.isModified('items')]: the new array differs from the stored one. *)
Definition items_modified (old new : order) : bool :=
  negb (items_eqb (items old) (items new)).

Definition sum_qty (l : list item) : Z :=
  fold_left (fun s it => s + qty it) l 0.

Definition sum_cost (l : list item) : Z :=
  fold_left (fun s it => s + totalCost it) l 0.

(** orderSchema.pre('save'). *)
Definition pre_save (modified : bool) (o : order) : order :=
  if modified then
    let q := sum_qty (items o) in
    let a := sum_cost (items o) in
    let a' := if 0 <? promoDiscount o then Z.max 0 (a - promoDiscount o) else a in
    with_totals o q a'
  else o.

(** [doc.save()] of the document [new] loaded as [old]: [None] when the
    save is rejected (validation error), nothing being written. *)
Definition save (old new : order) : option order :=
  if validate new then Some (pre_save (items_modified old new) new) else None.

(** orderSchema.methods.updateStatus. *)
Definition updateStatus (o : order) (newStatus : string) : option order :=
  save o (with_status o newStatus).

Fixpoint findIndex (p : item -> bool) (l : list item) : option nat :=
  match l with
  | [] => None
  | x :: r => if p x then Some O else option_map S (findIndex p r)
  end.

Fixpoint update_nth (n : nat) (f : item -> item) (l : list item) : list item :=
  match n, l with
  | _, [] => []
  | O, x :: r => f x :: r
  | S n', x :: r => x :: update_nth n' f r
  end.

(** orderSchema.methods.addItem. *)
Definition addItem (o : order) (code q price : Z) : option order :=
  match findIndex (fun it => itemCode it =? code) (items o) with
  | Some i =>
      let bump it :=
        let q' := qty it + q in mkItem (itemCode it) q' (unitPrice it) (q' * price) in
      save o (with_items o (update_nth i bump (items o)))
  | None =>
      save o (with_items o (items o ++ [mkItem code q price (q * price)]))
  end.

(** orderSchema.methods.removeItem. *)
Definition removeItem (o : order) (code : Z) : option order :=
  save o (with_items o (filter (fun it => negb (itemCode it =? code)) (items o))).

(** The totals invariant stated by the spec. *)
Definition totals_invariant (o : order) : Prop :=
  totalAmount o = Z.max 0 (sum_cost (items o) - promoDiscount o) /\
  totalQty o = sum_qty (items o).

End Order.

(** The order status endpoints: each loads the stored order, checks its
    guards and calls [updateStatus]; an exception of [save] ends in a 500. *)
Module StatusCtl.

Import Order.
Open Scope Z_scope.

Inductive outcome :=
| Ok (o : order)
| Rejected (httpStatus : Z).

Definition of_save (r : option order) : outcome :=
  match r with Some o' => Ok o' | None => Rejected 500 end.

(** The status stored after an endpoint ran on the stored order [o]. *)
Definition stored_status (o : order) (r : outcome) : string :=
  match r with Ok o' => orderStatus o' | Rejected _ => orderStatus o end.

(** [Order.findOne({ leadId, isActive: true })] on the order [o] stored
    under the requested leadId. *)
Definition admin_finds (o : order) : bool := isActive o.

(** [Order.findOne({ leadId, vendorId, isActive: true })] for the vendor
    [vendor]. *)
Definition vendor_finds (vendor : string) (o : order) : bool :=
  String.eqb (vendorId o) vendor && isActive o.

(** admin.cancelOrder. *)
Definition cancelOrder (o : order) : outcome :=
  if negb (admin_finds o) then Rejected 404
  else if String.eqb (orderStatus o) "delivered" then Rejected 400
  else of_save (updateStatus o "cancelled").

Definition validStatuses : list string :=
  ["pending"; "vendor_accepted"; "payment_done"; "order_confirmed";
   "truck_loading"; "in_transit"; "shipped"; "out_for_delivery";
   "delivered"; "cancelled"].

(** admin.updateOrderStatus (admin override). *)
Definition updateOrderStatus (o : order) (newStatus : string) : outcome :=
  if negb (str_in newStatus validStatuses) then Rejected 400
  else if negb (admin_finds o) then Rejected 404
  else of_save (updateStatus o newStatus).

Definition allowedStatuses : list string :=
  ["truck_loading"; "in_transit"; "shipped"; "out_for_delivery"; "delivered"].

Definition allowedCurrentStatuses : list string :=
  ["order_confirmed"; "truck_loading"; "in_transit"; "shipped"; "out_for_delivery"].

(** vendor.updateVendorOrderStatus, requested by the vendor [vendor]. *)
Definition updateVendorOrderStatus (vendor : string) (o : order) (newStatus : string)
    : outcome :=
  if negb (str_in newStatus allowedStatuses) then Rejected 400
  else if negb (vendor_finds vendor o) then Rejected 404
  else if negb (str_in (orderStatus o) allowedCurrentStatuses) then Rejected 400
  else of_save (updateStatus o newStatus).

(** Position in the vendor's shipping sequence (statuses outside it get 0). *)
Definition vendor_rank (s : string) : Z :=
  if String.eqb s "order_confirmed" then 0
  else if String.eqb s "truck_loading" then 1
  else if String.eqb s "in_transit" then 2
  else if String.eqb s "shipped" then 3
  else if String.eqb s "out_for_delivery" then 4
  else if String.eqb s "delivered" then 5
  else 0.

End StatusCtl.

Module Promo.

Open Scope Q_scope.

Inductive discount_type := percentage | fixed.

(** A promo document; an optional schema path that was never given is
    [None] ([undefined] in the code). Dates are milliseconds. *)
Record promo := mkPromo {
  discount : Q;
  discountAmount : option Q;
  discountType : discount_type;
  startDate : Z;
  endDate : Z;
  isActive : bool;
  minOrderValue : Q;
  maxDiscountAmount : option Q;
  usageLimit : option Q;
  usedCount : Q
}.

(** A JavaScript number as far as these methods produce one. *)
Inductive jsnum := Num (q : Q) | NaN.

Definition qlt (a b : Q) : bool := negb (Qle_bool b a).

(** [this.usageLimit === 0 || this.usedCount < this.usageLimit];
    both comparisons are false on [undefined]. *)
Definition usage_ok (p : promo) : bool :=
  match usageLimit p with
  | Some l => Qeq_bool l 0 || qlt (usedCount p) l
  | None => false
  end.

(** promoSchema.methods.isValid at time [now]. *)
Definition isValid (now : Z) (p : promo) : bool :=
  isActive p && (startDate p <=? now)%Z && (now <=? endDate p)%Z && usage_ok p.

(** [Math.min] on two numbers. *)
Definition qmin (x y : Q) : Q := if qlt y x then y else x.

(** [Math.min(d, orderValue)]. *)
Definition js_min (d : jsnum) (y : Q) : jsnum :=
  match d with
  | Num x => Num (qmin x y)
  | NaN => NaN
  end.

(** promoSchema.methods.calculateDiscount at time [now]. *)
Definition calculateDiscount (now : Z) (p : promo) (orderValue : Q) : jsnum :=
  if negb (isValid now p) || qlt orderValue (minOrderValue p) then Num 0
  else
    let d :=
      match discountType p with
      | percentage => Num (orderValue * discount p / 100)
      | fixed => match discountAmount p with Some a => Num a | None => NaN end
      end in
    (* [if (this.maxDiscountAmount && discountAmount > this.maxDiscountAmount)] *)
    let d' :=
      match maxDiscountAmount p, d with
      | Some m, Num x => if negb (Qeq_bool m 0) && qlt m x then Num m else d
      | _, _ => d
      end in
    js_min d' orderValue.

(** The [status] virtual at time [now]. *)
Definition status (now : Z) (p : promo) : string :=
  if negb (isActive p) then "inactive"
  else if (now <? startDate p)%Z then "upcoming"
  else if (endDate p <? now)%Z then "expired"
  else if match usageLimit p with
          | Some l => qlt 0 l && Qle_bool l (usedCount p)
          | None => false
          end then "exhausted"
  else "active".

(** The "Apply maximum discount limit" step of calculateDiscount on a
    discount that is a number. *)
Definition apply_max_limit (p : promo) (x : Q) : Q :=
  match maxDiscountAmount p with
  | Some m => if negb (Qeq_bool m 0) && qlt m x then m else x
  | None => x
  end.

End Promo.

Module Shipping.

Open Scope Q_scope.

(** An InventoryShipPrice document. *)
Record shipPrice := mkShipPrice {
  spItemCode : Z;
  price0to50k : Q;
  price50kto100k : Q;
  price100kto150k : Q;
  price150kto200k : Q;
  priceAbove200k : Q;
  spIsActive : bool
}.

(** inventoryShipPriceSchema.methods.getShippingPrice. *)
Definition getShippingPrice (t : shipPrice) (orderValue : Q) : Q :=
  if Qle_bool orderValue 50000 then price0to50k t
  else if Qle_bool orderValue 100000 then price50kto100k t
  else if Qle_bool orderValue 150000 then price100kto150k t
  else if Qle_bool orderValue 200000 then price150kto200k t
  else priceAbove200k t.

(** [InventoryShipPrice.findOne({ itemCode, isActive: true })] over the
    collection [db]. *)
Definition findActive (db : list shipPrice) (code : Z) : option shipPrice :=
  find (fun t => (spItemCode t =? code)%Z && spIsActive t) db.

(** inventoryShipPriceSchema.statics.getShippingPriceForOrder. *)
Definition getShippingPriceForOrder (db : list shipPrice) (code : Z) (orderValue : Q) : Q :=
  match findActive db code with
  | None => 0
  | Some t => getShippingPrice t orderValue
  end.

Inductive response :=
| Ok200 (shippingCost : Q)
| BadRequest400
| NotFound404.

(** The getShippingPrice controller; a query parameter that is missing
    (or empty) is [None]. *)
Definition getShippingPriceCtl (db : list shipPrice) (itemCode : option Z)
    (orderValue : option Q) : response :=
  match itemCode, orderValue with
  | Some code, Some v =>
      match findActive db code with
      | None => NotFound404
      | Some t => Ok200 (getShippingPrice t v)
      end
  | _, _ => BadRequest400
  end.

End Shipping.

Module Payment.

Import Order.

Record statusEvent := mkEvent {
  ev_leadId : string;
  ev_status : string;
  ev_actorId : string;
  ev_remarks : string
}.

(** The writes the callback performs, in order. *)
Inductive action :=
| MarkPaid
| WriteStatus (s : string)
| AppendEvent (s : string).

Record db := mkDb {
  stored : order;
  history : list statusEvent;
  paymentStatus : string;
  trace : list action
}.

(** Each await either succeeds or throws; a throw skips the rest, and the
    writes already done stay. *)
Definition M (A : Type) : Type := db -> option A * db.

Definition ret {A} (a : A) : M A := fun d => (Some a, d).

Definition bind {A B} (m : M A) (k : A -> M B) : M B :=
  fun d => match m d with
           | (Some a, d') => k a d'
           | (None, d') => (None, d')
           end.

Notation "x <- m ;; k" := (bind m (fun x => k))
  (at level 61, m at next level, right associativity).

(** Modelled from the spec: OrderPayment.markAsSuccessful (models/OrderPayment.js
    is not in the sources). The payment record moves from [processing] to its
    successful terminal state [completed]. *)
Definition markAsSuccessful : M unit :=
  fun d => (Some tt, mkDb (stored d) (history d) "completed" (trace d ++ [MarkPaid])).

(** Modelled from the spec: OrderStatus.createStatusUpdate (models/OrderStatus.js
    is not in the sources). Appends one OrderStatusEvent to the append-only
    history. *)
Definition createStatusUpdate (lead status actor remarks : string) : M unit :=
  fun d => (Some tt, mkDb (stored d) (history d ++ [mkEvent lead status actor remarks])
                          (paymentStatus d) (trace d ++ [AppendEvent status])).

(** [await order.updateStatus(s)]: the document saved, or a throw. *)
Definition updateStatusM (o : order) (s : string) : M order :=
  fun d => match updateStatus o s with
           | Some o' => (Some o', mkDb o' (history d) (paymentStatus d) (trace d ++ [WriteStatus s]))
           | None => (None, d)
           end.

(** The delayed callback of customer.processPayment, on the order document
    [o] loaded by the request. *)
Definition paymentCallback (o : order) (customerId : string) : M unit :=
  _ <- markAsSuccessful ;;
  o1 <- updateStatusM o "payment_done" ;;
  _ <- createStatusUpdate (leadId o1) "payment_done" customerId
         "Payment processed successfully" ;;
  o2 <- updateStatusM o1 "order_confirmed" ;;
  createStatusUpdate (leadId o2) "order_confirmed" customerId
    "Order confirmed after successful payment".

End Payment.

(** Further order operations of the model and the controllers. *)
Module OrderOps.

Import Order StatusCtl.
Open Scope Z_scope.

Record totals := mkTotals {
  subtotal : Z;
  totals_promoDiscount : Z;
  total : Z
}.

(** orderSchema.methods.calculateTotal. *)
Definition calculateTotal (o : order) : totals :=
  let subtotal := sum_cost (items o) in
  mkTotals subtotal (promoDiscount o) (Z.max 0 (subtotal - promoDiscount o)).

Definition with_active (o : order) (b : bool) : order :=
  mkOrder (leadId o) (vendorId o) (custUserId o) (items o) (totalQty o)
          (totalAmount o) (promoDiscount o) (orderStatus o) b.

(** customer.removeFromCart, on the customer's order [o] with the given
    leadId: the query only finds it while pending and active. *)
Definition removeFromCart (o : order) (code : Z) : outcome :=
  if negb (String.eqb (orderStatus o) "pending") || negb (isActive o) then Rejected 404
  else
    match removeItem o code with
    | None => Rejected 500
    | Some o1 =>
        if (length (items o1) =? 0)%nat
        then of_save (save o1 (with_active o1 false))
        else of_save (save o1 o1)
    end.

(** vendor.acceptOrder, on the vendor's order [o] with the given leadId. *)
Definition acceptOrder (o : order) : outcome :=
  if String.eqb (orderStatus o) "pending" && isActive o
  then of_save (updateStatus o "vendor_accepted")
  else Rejected 404.

(** vendor.rejectOrder, on the vendor's order [o] with the given leadId. *)
Definition rejectOrder (o : order) : outcome :=
  if String.eqb (orderStatus o) "pending" && isActive o
  then of_save (updateStatus o "cancelled")
  else Rejected 404.

(** admin.confirmOrder. *)
Definition confirmOrder (o : order) : outcome :=
  if negb (isActive o) then Rejected 404
  else if negb (String.eqb (orderStatus o) "payment_done") then Rejected 400
  else of_save (updateStatus o "order_confirmed").

(** admin.markDelivered, up to its order status write (the delivery
    record is written after it). *)
Definition markDelivered (o : order) : outcome :=
  if negb (isActive o) then Rejected 404
  else of_save (updateStatus o "delivered").

(** admin.markPaymentDone. [paidAmount] is the body's number ([None] when
    missing); [paymentSaved] says whether the OrderPayment write, which
    comes before the status write, succeeds (models/OrderPayment.js is not
    in the sources). *)
Definition markPaymentDone (o : order) (paidAmount : option Q) (paymentSaved : bool)
    : outcome :=
  if negb (admin_finds o) then Rejected 404
  else if negb (String.eqb (orderStatus o) "vendor_accepted") then Rejected 400
  else match paidAmount with
       | None => Rejected 400
       | Some a =>
           if Qle_bool a 0 then Rejected 400
           else if negb paymentSaved then Rejected 500
           else of_save (updateStatus o "payment_done")
       end.

(** The lookup of customer.processPayment for the customer [customer]:
    [Order.findOne({ leadId, custUserId, orderStatus: 'vendor_accepted',
    isActive: true })]. [None] is its 404; the order found is the one the
    delayed callback ([Payment.paymentCallback]) later updates. *)
Definition processPayment_order (customer : string) (o : order) : option order :=
  if String.eqb (custUserId o) customer && String.eqb (orderStatus o) "vendor_accepted" &&
     isActive o
  then Some o else None.

(** The [isIn] list of the deliveryStatus validator of the tracking route. *)
Definition deliveryStatuses : list string :=
  ["pending"; "picked_up"; "in_transit"; "out_for_delivery"; "delivered";
   "failed"; "returned"].

(** vendor.updateDeliveryTracking, requested by the vendor [vendor], up to
    its order status write. [deliverySaved] says whether the awaited
    OrderDelivery writes (creating the record, addTrackingInfo,
    updateDeliveryStatus), which come before it, succeed. *)
Definition updateDeliveryTracking (vendor : string) (o : order)
    (deliveryStatus : option string) (deliverySaved : bool) : outcome :=
  if match deliveryStatus with
     | Some ds => negb (str_in ds deliveryStatuses)
     | None => false
     end then Rejected 400
  else if negb (vendor_finds vendor o) then Rejected 404
  else if negb deliverySaved then Rejected 500
  else match deliveryStatus with
       | Some ds =>
           if String.eqb ds "delivered" then of_save (updateStatus o "delivered")
           else if String.eqb ds "in_transit" || String.eqb ds "out_for_delivery"
           then of_save (updateStatus o "shipped")
           else Ok o
       | None => Ok o
       end.

End OrderOps.

Module PromoOps.

Import Promo.
Open Scope Q_scope.

Definition with_usedCount (p : promo) (u : Q) : promo :=
  mkPromo (discount p) (discountAmount p) (discountType p) (startDate p)
          (endDate p) (isActive p) (minOrderValue p) (maxDiscountAmount p)
          (usageLimit p) u.

Definition opt_nonneg (x : option Q) : bool :=
  match x with Some v => Qle_bool 0 v | None => true end.

(** The schema validators of promoSchema ([min] and [max] of its numbers). *)
Definition promo_validate (p : promo) : bool :=
  Qle_bool 0 (discount p) && Qle_bool (discount p) 100 &&
  opt_nonneg (discountAmount p) && Qle_bool 0 (minOrderValue p) &&
  opt_nonneg (maxDiscountAmount p) && opt_nonneg (usageLimit p) &&
  Qle_bool 0 (usedCount p).

(** promoSchema.methods.usePromo: [None] when the save is rejected. *)
Definition usePromo (p : promo) : option promo :=
  let p' :=
    match usageLimit p with
    | Some l => if qlt 0 l then with_usedCount p (usedCount p + 1) else p
    | None => p
    end in
  if promo_validate p' then Some p' else None.

(** [n] successive usePromo calls. *)
Fixpoint usePromo_n (n : nat) (p : promo) : option promo :=
  match n with
  | O => Some p
  | S k => match usePromo p with Some p' => usePromo_n k p' | None => None end
  end.

Record discountReply := mkReply {
  replyDiscount : jsnum;
  finalAmount : jsnum;
  replyIsValid : bool
}.

Inductive promoResponse :=
| PromoOk (r : discountReply)
| PromoNotFound.

(** The calculatePromoDiscount controller; [found] is
    [Promo.findById(promoId)]. *)
Definition calculatePromoDiscount (now : Z) (found : option promo) (orderValue : Q)
    : promoResponse :=
  match found with
  | None => PromoNotFound
  | Some p =>
      let d := calculateDiscount now p orderValue in
      PromoOk (mkReply d
                 (match d with Num x => Num (orderValue - x) | NaN => NaN end)
                 (isValid now p))
  end.

End PromoOps.

(** The [canAccess] method body shared by Promo (owner: createdBy),
    InventoryShipPrice and InventoryPrice (owner: vendorId). *)
Module Access.

Open Scope Z_scope.

Record user := mkUser {
  role : string;
  userId : Z
}.

Definition canAccess (owner : Z) (active : bool) (u : user) : bool :=
  if String.eqb (role u) "admin" then true
  else if String.eqb (role u) "manager" then true
  else if String.eqb (role u) "vendor" && (owner =? userId u) then true
  else if Order.str_in (role u) ["employee"; "customer"] then active
  else false.

End Access.

(** models/InventoryPrice.js. *)
Module Pricing.

Open Scope Q_scope.

Record inventoryPrice := mkPrice {
  unitPrice : Q;
  margin : Q;
  marginPercentage : Q;
  cgst : Q;
  sgst : Q;
  igst : Q;
  tax : Q;
  totalPrice : Q
}.

(** The [min] and [max] validators of inventoryPriceSchema. *)
Definition price_validate (p : inventoryPrice) : bool :=
  Qle_bool 0 (unitPrice p) && Qle_bool 0 (margin p) &&
  Qle_bool 0 (marginPercentage p) && Qle_bool (marginPercentage p) 100 &&
  Qle_bool 0 (cgst p) && Qle_bool 0 (sgst p) && Qle_bool 0 (igst p) &&
  Qle_bool 0 (tax p).

(** The default of [totalPrice] for a new document. *)
Definition totalPrice_default (p : inventoryPrice) : Q := unitPrice p + tax p.

(** The [priceWithTax] virtual. *)
Definition priceWithTax (p : inventoryPrice) : Q :=
  let taxAmount := unitPrice p * tax p / 100 in
  unitPrice p + taxAmount.

(** inventoryPriceSchema.pre('save'). *)
Definition price_pre_save (p : inventoryPrice) : inventoryPrice :=
  let taxAmount := unitPrice p * tax p / 100 in
  mkPrice (unitPrice p) (margin p) (marginPercentage p) (cgst p) (sgst p)
          (igst p) (tax p) (unitPrice p + taxAmount).

Definition savePrice (p : inventoryPrice) : option inventoryPrice :=
  if price_validate p then Some (price_pre_save p) else None.

End Pricing.

(** Concrete documents used by the examples below. *)
Module Samples.

Import Order.
Open Scope Z_scope.

(** A cart with one line: item 1, qty 3 at unit price 100. *)
Definition cart : order :=
  mkOrder "lead-1" "vendor-1" "cust-1" [mkItem 1 3 100 300] 3 300 0 "pending" true.

(** The same order after delivery. *)
Definition delivered_order : order :=
  mkOrder "lead-2" "vendor-1" "cust-1" [mkItem 1 3 100 300] 3 300 0 "delivered" true.

Definition shipped_order : order :=
  mkOrder "lead-3" "vendor-1" "cust-1" [mkItem 1 3 100 300] 3 300 0 "shipped" true.

(** A live 10% promo capped at 40, without usage limit (usageLimit 0). *)
Definition promo_pct : Promo.promo :=
  Promo.mkPromo 10 None Promo.percentage 0 100 true 0 (Some 40%Q) (Some 0%Q) 0.

(** The same promo with maxDiscountAmount 0. *)
Definition promo_cap0 : Promo.promo :=
  Promo.mkPromo 10 None Promo.percentage 0 100 true 0 (Some 0%Q) (Some 0%Q) 0.

(** A live 10% promo whose usageLimit was never given. *)
Definition promo_nolimit : Promo.promo :=
  Promo.mkPromo 10 None Promo.percentage 0 100 true 0 None None 0.

(** A shipping table for item 7: 100, 80, 60, 40, 20 by band. *)
Definition ship_table : Shipping.shipPrice :=
  Shipping.mkShipPrice 7 100 80 60 40 20 true.

(** The same table, deactivated. *)
Definition ship_inactive : Shipping.shipPrice :=
  Shipping.mkShipPrice 7 100 80 60 40 20 false.

(** An order accepted by its vendor, and the store when its payment starts. *)
Definition accepted_order : order :=
  mkOrder "lead-4" "vendor-1" "cust-1" [mkItem 1 3 100 300] 3 300 0 "vendor_accepted" true.

Definition payment_start : Payment.db :=
  Payment.mkDb accepted_order [] "processing" [].

End Samples.

(** More concrete documents, for the further properties. *)
Module Samples2.

Import Order.
Open Scope Z_scope.

(** A cart with lines for items 1 and 2. *)
Definition cart2 : order :=
  mkOrder "lead-5" "vendor-1" "cust-1" [mkItem 1 3 100 300; mkItem 2 1 50 50] 4 350 0 "pending" true.

Definition cancelled_order : order :=
  mkOrder "lead-6" "vendor-1" "cust-1" [mkItem 1 3 100 300] 3 300 0 "cancelled" true.

Definition paid_order : order :=
  mkOrder "lead-7" "vendor-1" "cust-1" [mkItem 1 3 100 300] 3 300 0 "payment_done" true.

(** A live promo limited to 2 uses, none used yet. *)
Definition promo_limit2 : Promo.promo :=
  Promo.mkPromo 10 None Promo.percentage 0 100 true 0 None (Some 2%Q) 0.

Definition price_18 : Pricing.inventoryPrice :=
  Pricing.mkPrice 200 0 0 9 9 0 18 0.

End Samples2.

(* ------------------------------------------------------------------ *)
(** * Facts about the order model *)

Module OrderFacts.

Import Order StatusCtl.
Open Scope Z_scope.

Lemma str_in_In (s : string) (l : list string) : str_in s l = true <-> In s l.
Proof.
  unfold str_in. rewrite existsb_exists. split.
  - intros [x [Hx Heq]]. apply String.eqb_eq in Heq. subst. exact Hx.
  - intros H. exists s. split; [exact H | apply String.eqb_refl].
Qed.

Lemma item_eqb_sound (a b : item) : item_eqb a b = true -> a = b.
Proof.
  destruct a, b; unfold item_eqb; simpl.
  rewrite !andb_true_iff, !Z.eqb_eq. intros [[[-> ->] ->] ->]. reflexivity.
Qed.

Lemma items_eqb_sound (l1 l2 : list item) : items_eqb l1 l2 = true -> l1 = l2.
Proof.
  revert l2; induction l1 as [|a r IH]; intros [|b r2]; simpl; try discriminate.
  - reflexivity.
  - rewrite andb_true_iff. intros [Hab Hr].
    now rewrite (item_eqb_sound a b Hab), (IH r2 Hr).
Qed.

Lemma items_eqb_refl (l : list item) : items_eqb l l = true.
Proof.
  induction l as [|a r IH]; simpl; [reflexivity|].
  rewrite IH, andb_true_r. destruct a; unfold item_eqb; simpl.
  now rewrite !Z.eqb_refl.
Qed.

Lemma sum_cost_acc_nonneg (l : list item) (acc : Z) :
  0 <= acc -> forallb item_valid l = true ->
  0 <= fold_left (fun s it => s + totalCost it) l acc.
Proof.
  revert acc; induction l as [|it r IH]; intros acc Hacc Hl; simpl in *; [exact Hacc|].
  apply andb_true_iff in Hl as [Hit Hr]. apply IH; [|exact Hr].
  unfold item_valid in Hit. rewrite !andb_true_iff, !Z.leb_le in Hit. lia.
Qed.

Lemma sum_cost_nonneg (l : list item) :
  forallb item_valid l = true -> 0 <= sum_cost l.
Proof. intros H. apply sum_cost_acc_nonneg; [lia | exact H]. Qed.

Lemma pre_save_items (b : bool) (o : order) : items (pre_save b o) = items o.
Proof. destruct b; reflexivity. Qed.

Lemma pre_save_status (b : bool) (o : order) : orderStatus (pre_save b o) = orderStatus o.
Proof. destruct b; reflexivity. Qed.

Lemma save_inv (old new o' : order) :
  save old new = Some o' ->
  validate new = true /\ o' = pre_save (items_modified old new) new.
Proof.
  unfold save. destruct (validate new); intros H; [|discriminate].
  injection H as <-. split; reflexivity.
Qed.

(** A save that rewrites [items] leaves the totals derived from them. *)
Lemma save_modified_totals (old new o' : order) :
  save old new = Some o' -> items o' <> items old -> totals_invariant o'.
Proof.
  intros Hs Hne. apply save_inv in Hs as [Hv ->].
  destruct (items_modified old new) eqn:Hm.
  - unfold validate in Hv. rewrite !andb_true_iff, !Z.leb_le in Hv.
    destruct Hv as [[[Hit Hta] Hpd] _].
    pose proof (sum_cost_nonneg _ Hit) as Hsum.
    unfold totals_invariant; simpl. split; [|reflexivity].
    destruct (0 <? promoDiscount new) eqn:Hp; [reflexivity|].
    apply Z.ltb_ge in Hp. lia.
  - exfalso. apply Hne. unfold items_modified in Hm.
    apply negb_false_iff, items_eqb_sound in Hm. simpl. now rewrite Hm.
Qed.

Lemma validate_with_status (o : order) (s : string) :
  validate o = true -> In s orderStatusEnum -> validate (with_status o s) = true.
Proof.
  intros Hv Hs. unfold validate, with_status in *.
  cbn [items totalAmount promoDiscount orderStatus] in *.
  rewrite !andb_true_iff in *. destruct Hv as [[[H1 H2] H3] _].
  repeat split; try assumption. now apply str_in_In.
Qed.

Lemma validate_status_enum (o : order) :
  validate o = true -> In (orderStatus o) orderStatusEnum.
Proof.
  unfold validate. rewrite !andb_true_iff. intros [_ H]. now apply str_in_In.
Qed.

(** A status change on a valid stored order is saved as it is. *)
Lemma updateStatus_enum (o : order) (s : string) :
  validate o = true -> In s orderStatusEnum ->
  updateStatus o s = Some (with_status o s).
Proof.
  intros Hv Hs. unfold updateStatus, save.
  rewrite (validate_with_status o s Hv Hs).
  unfold items_modified; simpl. now rewrite items_eqb_refl.
Qed.

Lemma updateStatus_not_enum (o : order) (s : string) :
  ~ In s orderStatusEnum -> updateStatus o s = None.
Proof.
  intros Hs. unfold updateStatus, save.
  destruct (validate (with_status o s)) eqn:Hv; [|reflexivity].
  exfalso. apply Hs. apply validate_status_enum in Hv. exact Hv.
Qed.

End OrderFacts.

Module OrderClaims.

Import Order StatusCtl OrderOps OrderFacts.
Open Scope Z_scope.

(** Splits a hypothesis [In x [a; b; ...]] into one goal per literal. *)
Ltac in_cases H :=
  simpl in H;
  repeat match type of H with
         | _ \/ _ => destruct H as [H|H]
         end;
  try contradiction; subst.

(** C1: whenever addItem or removeItem saves an order whose items list it
    changed, the stored totalAmount is max(0, sum of the lines' totalCost
    minus promoDiscount) and the stored totalQty is the sum of their qty. *)
Theorem addItem_removeItem_totals (o o' : order) :
  ((exists code q price, addItem o code q price = Some o') \/
   (exists code, removeItem o code = Some o')) ->
  items o' <> items o -> totals_invariant o'.
Proof.
  intros [[code [q [price H]]] | [code H]] Hne.
  - unfold addItem in H.
    destruct (findIndex _ _); eapply save_modified_totals; eauto.
  - unfold removeItem in H. eapply save_modified_totals; eauto.
Qed.

Lemma addItem_removeItem_totals_witness :
  totals_invariant
    (match addItem Samples.cart 1 2 100 with Some o' => o' | None => Samples.cart end).
Proof.
  apply (addItem_removeItem_totals Samples.cart).
  - left. exists 1, 2, 100. vm_compute. reflexivity.
  - vm_compute. discriminate.
Defined.

(** C4 (diverging input): adding 2 more of item 1 to a line stored as
    qty 3 at unit price 100, with 120 passed as the unit price, saves the
    line with qty 5, its stored unitPrice still 100, and totalCost 600 =
    5 * 120, not 5 * 100 = 500. *)
Theorem addItem_existing_line_prices_with_argument :
  option_map items (addItem Samples.cart 1 2 120) = Some [mkItem 1 5 100 600] /\
  5 * unitPrice (hd (mkItem 0 0 0 0) (items Samples.cart)) = 500.
Proof. split; vm_compute; reflexivity. Qed.

(** C5 (counterexample): a delivered order leaves 'delivered' through the
    two endpoints without a current-status guard: the admin override
    updateOrderStatus moves it to 'cancelled', and the vendor's
    updateDeliveryTracking with deliveryStatus 'in_transit' moves it to
    'shipped'. *)
Lemma delivered_order_moved_by_unguarded_endpoints :
  orderStatus Samples.delivered_order = "delivered" /\
  stored_status Samples.delivered_order
    (updateOrderStatus Samples.delivered_order "cancelled") = "cancelled" /\
  stored_status Samples.delivered_order
    (updateDeliveryTracking "vendor-1" Samples.delivered_order (Some "in_transit") true)
    = "shipped".
Proof. split; [|split]; vm_compute; reflexivity. Qed.

Lemma stored_of_save_same (o : order) (s : string) :
  orderStatus o = s -> stored_status o (of_save (updateStatus o s)) = s.
Proof.
  intros Hs. destruct (updateStatus o s) as [o'|] eqn:Hu; simpl; [|exact Hs].
  unfold updateStatus in Hu. apply save_inv in Hu as [_ ->].
  now rewrite pre_save_status.
Qed.

(** C5 (amended): on a delivered order, the endpoints whose guards exclude
    'delivered' leave the stored status 'delivered', whoever calls them
    and with whatever body: the admin cancelOrder (400, or 404 for an
    inactive order), the vendor's updateVendorOrderStatus, acceptOrder and
    rejectOrder, the admin confirmOrder and markPaymentDone, the lookup of
    processPayment (nothing found), and markDelivered (which writes
    'delivered' again). The two endpoints without a current-status guard
    do move it: on a valid active order the admin override
    updateOrderStatus sets any status of the Order schema's enumeration,
    'cancelled' included, and the vendor's updateDeliveryTracking with
    deliveryStatus 'in_transit' or 'out_for_delivery' sets 'shipped'. *)
Theorem delivered_status_guards (o : order) :
  orderStatus o = "delivered" ->
  stored_status o (cancelOrder o) = "delivered" /\
  (isActive o = true -> cancelOrder o = Rejected 400) /\
  (forall v s, stored_status o (updateVendorOrderStatus v o s) = "delivered") /\
  acceptOrder o = Rejected 404 /\ rejectOrder o = Rejected 404 /\
  stored_status o (confirmOrder o) = "delivered" /\
  (forall a ok, stored_status o (markPaymentDone o a ok) = "delivered") /\
  (forall c, processPayment_order c o = None) /\
  stored_status o (markDelivered o) = "delivered" /\
  (validate o = true -> isActive o = true -> forall s, In s orderStatusEnum ->
     updateOrderStatus o s = Ok (with_status o s)) /\
  (validate o = true -> isActive o = true ->
   forall ds, In ds ["in_transit"; "out_for_delivery"] ->
     updateDeliveryTracking (vendorId o) o (Some ds) true = Ok (with_status o "shipped")).
Proof.
  intros Hd.
  split; [|split; [|split; [|split; [|split; [|split; [|split; [|split; [|split; [|split]]]]]]]]].
  - unfold cancelOrder, admin_finds. destruct (isActive o); cbn [negb]; [|exact Hd].
    rewrite Hd. cbn. exact Hd.
  - intros Ha. unfold cancelOrder, admin_finds. now rewrite Ha, Hd.
  - intros v s. unfold updateVendorOrderStatus.
    destruct (str_in s allowedStatuses); [|exact Hd].
    destruct (vendor_finds v o); [|exact Hd].
    cbn [negb]. rewrite Hd. cbn. exact Hd.
  - unfold acceptOrder. now rewrite Hd.
  - unfold rejectOrder. now rewrite Hd.
  - unfold confirmOrder. destruct (isActive o); [|exact Hd].
    cbn [negb]. rewrite Hd. cbn. exact Hd.
  - intros a ok. unfold markPaymentDone, admin_finds. destruct (isActive o); [|exact Hd].
    cbn [negb]. rewrite Hd. cbn. exact Hd.
  - intros c. unfold processPayment_order. rewrite Hd.
    destruct (String.eqb (custUserId o) c); reflexivity.
  - unfold markDelivered. destruct (isActive o); [|exact Hd].
    apply stored_of_save_same. exact Hd.
  - intros Hv Ha s Hs. unfold updateOrderStatus, admin_finds.
    assert (Hvs : str_in s validStatuses = true).
    { apply str_in_In. simpl in Hs |- *. tauto. }
    rewrite Hvs, Ha. cbn [negb].
    now rewrite (updateStatus_enum o s Hv Hs).
  - intros Hv Ha ds Hds. unfold updateDeliveryTracking, vendor_finds.
    rewrite String.eqb_refl, Ha.
    assert (Hsh : updateStatus o "shipped" = Some (with_status o "shipped"))
      by (apply updateStatus_enum; [exact Hv | simpl; tauto]).
    in_cases Hds; cbn; rewrite Hsh; reflexivity.
Qed.

Lemma delivered_status_guards_witness :
  cancelOrder Samples.delivered_order = Rejected 400.
Proof.
  exact (proj1 (proj2 (delivered_status_guards Samples.delivered_order eq_refl)) eq_refl).
Defined.

(** C6: the vendor status update is rejected on an order still before
    'order_confirmed' (400 once the vendor's active order is found, 404
    when there is none) and for any target outside truck_loading,
    in_transit, shipped, out_for_delivery, delivered ('vendor_accepted'
    among them); an accepted update stores its target and never moves the
    order back in the sequence order_confirmed, truck_loading, in_transit,
    shipped, out_for_delivery, delivered. *)
Theorem vendor_update_monotone (o : order) :
  In (orderStatus o) orderStatusEnum ->
  (In (orderStatus o) ["pending"; "vendor_accepted"; "payment_done"] ->
     forall v s, (exists c, updateVendorOrderStatus v o s = Rejected c) /\
                 (vendor_finds v o = true -> updateVendorOrderStatus v o s = Rejected 400)) /\
  (forall v s, ~ In s allowedStatuses -> updateVendorOrderStatus v o s = Rejected 400) /\
  (forall v, updateVendorOrderStatus v o "vendor_accepted" = Rejected 400) /\
  (forall v s o', updateVendorOrderStatus v o s = Ok o' ->
     In s allowedStatuses /\ orderStatus o' = s /\
     vendor_rank (orderStatus o) <= vendor_rank (orderStatus o')).
Proof.
  intros Hst. split; [|split; [|split]].
  - intros Hpre v s.
    assert (Hc : str_in (orderStatus o) allowedCurrentStatuses = false).
    { remember (orderStatus o) as cur eqn:Hcur. clear Hcur Hst.
      in_cases Hpre; reflexivity. }
    unfold updateVendorOrderStatus.
    destruct (str_in s allowedStatuses); cbn [negb];
      [|split; [eexists; reflexivity | reflexivity]].
    destruct (vendor_finds v o); cbn [negb];
      [|split; [eexists; reflexivity | discriminate]].
    rewrite Hc. split; [eexists; reflexivity | reflexivity].
  - intros v s Hs. unfold updateVendorOrderStatus.
    destruct (str_in s allowedStatuses) eqn:Ha; [|reflexivity].
    exfalso. apply Hs, str_in_In, Ha.
  - intros v. reflexivity.
  - intros v s o' H. unfold updateVendorOrderStatus in H.
    destruct (str_in s allowedStatuses) eqn:Ha; [|discriminate].
    destruct (vendor_finds v o); [|discriminate].
    destruct (str_in (orderStatus o) allowedCurrentStatuses) eqn:Hc; [|discriminate].
    simpl in H. destruct (updateStatus o s) eqn:Hu; [|discriminate].
    injection H as <-. apply save_inv in Hu as [Hv ->].
    rewrite pre_save_status. cbn [orderStatus with_status].
    unfold validate in Hv. rewrite !andb_true_iff in Hv. destruct Hv as [_ Hv].
    cbn [orderStatus with_status] in Hv.
    split; [now apply str_in_In|split; [reflexivity|]].
    remember (orderStatus o) as cur eqn:Hcur. clear Hcur.
    apply str_in_In in Ha.
    in_cases Ha; in_cases Hst; vm_compute in Hv, Hc |- *;
      solve [discriminate | congruence].
Qed.

Lemma vendor_update_monotone_witness :
  updateVendorOrderStatus "vendor-1" Samples.shipped_order "vendor_accepted" = Rejected 400.
Proof.
  assert (Hin : In (orderStatus Samples.shipped_order) orderStatusEnum)
    by (simpl; tauto).
  exact (proj1 (proj2 (proj2 (vendor_update_monotone Samples.shipped_order Hin)))
           "vendor-1").
Defined.

(** C9: saving 'truck_loading', 'in_transit' or 'out_for_delivery' through
    updateStatus always fails, since the Order schema's status enumeration
    lacks them, so the stored status is unchanged; these are targets the
    vendor endpoint lists as allowed. Both the vendor endpoint and the
    admin override leave the stored status unchanged on them, the
    override answering 500 once it finds the active order. *)
Theorem unlisted_status_rejected (o : order) (s : string) :
  In s ["truck_loading"; "in_transit"; "out_for_delivery"] ->
  updateStatus o s = None /\
  In s allowedStatuses /\
  (isActive o = true -> updateOrderStatus o s = Rejected 500) /\
  stored_status o (updateOrderStatus o s) = orderStatus o /\
  (forall v, stored_status o (updateVendorOrderStatus v o s) = orderStatus o).
Proof.
  intros Hs.
  assert (Hn : ~ In s orderStatusEnum)
    by (in_cases Hs; simpl; intuition discriminate).
  pose proof (updateStatus_not_enum o s Hn) as Hu.
  assert (Ha : str_in s allowedStatuses = true /\ str_in s validStatuses = true)
    by (in_cases Hs; split; reflexivity).
  destruct Ha as [Ha Hvs].
  split; [exact Hu|split; [now apply str_in_In|split; [|split]]].
  - intros Hact. unfold updateOrderStatus, admin_finds. rewrite Hvs, Hact, Hu. reflexivity.
  - unfold updateOrderStatus, admin_finds. rewrite Hvs.
    destruct (isActive o); cbn [negb]; [rewrite Hu|]; reflexivity.
  - intros v. unfold updateVendorOrderStatus. rewrite Ha. cbn [negb].
    destruct (vendor_finds v o); cbn [negb]; [|reflexivity].
    destruct (str_in (orderStatus o) allowedCurrentStatuses);
      cbn [negb]; [rewrite Hu|]; reflexivity.
Qed.

Lemma unlisted_status_rejected_witness :
  updateStatus Samples.shipped_order "in_transit" = None.
Proof.
  exact (proj1 (unlisted_status_rejected Samples.shipped_order "in_transit"
                  ltac:(simpl; tauto))).
Defined.

End OrderClaims.

(* ------------------------------------------------------------------ *)
(** * Facts about promos *)

From Stdlib Require Import Lqa.

Module PromoClaims.

Import Promo.
Open Scope Q_scope.

Lemma qlt_true (a b : Q) : qlt a b = true -> a < b.
Proof.
  unfold qlt. intros H. apply negb_true_iff in H.
  apply Qnot_le_lt. intros Hle. apply Qle_bool_iff in Hle. congruence.
Qed.

Lemma qlt_false (a b : Q) : qlt a b = false -> b <= a.
Proof. unfold qlt. intros H. apply negb_false_iff, Qle_bool_iff in H. exact H. Qed.

Lemma qlt_intro (a b : Q) : a < b -> qlt a b = true.
Proof.
  intros H. destruct (qlt a b) eqn:E; [reflexivity|].
  apply qlt_false in E. lra.
Qed.

Lemma qmin_le_r (x y : Q) : qmin x y <= y.
Proof.
  unfold qmin. destruct (qlt y x) eqn:E; [lra|]. now apply qlt_false.
Qed.

Lemma qmin_le_l (x y : Q) : qmin x y <= x.
Proof.
  unfold qmin. destruct (qlt y x) eqn:E; [apply qlt_true in E; lra|lra].
Qed.

Lemma max_limit_num (p : promo) (v : Q) :
  match maxDiscountAmount p, Num v with
  | Some m, Num x => if negb (Qeq_bool m 0) && qlt m x then Num m else Num v
  | _, _ => Num v
  end = Num (apply_max_limit p v).
Proof.
  unfold apply_max_limit. destruct (maxDiscountAmount p); [|reflexivity].
  destruct (negb (Qeq_bool q 0) && qlt q v); reflexivity.
Qed.

Lemma apply_max_limit_le (p : promo) (v m : Q) :
  maxDiscountAmount p = Some m -> ~ m == 0 -> apply_max_limit p v <= m.
Proof.
  intros Hm Hnz. unfold apply_max_limit. rewrite Hm.
  destruct (negb (Qeq_bool m 0) && qlt m v) eqn:E; [lra|].
  apply andb_false_iff in E as [E|E].
  - apply negb_false_iff, Qeq_bool_iff in E. contradiction.
  - now apply qlt_false.
Qed.

(** A number returned by calculateDiscount is 0 (early return) or
    [Math.min] of a capped discount and the order value. *)
Lemma calculateDiscount_cases (now : Z) (p : promo) (ov x : Q) :
  calculateDiscount now p ov = Num x ->
  x = 0 \/ exists v, x = qmin (apply_max_limit p v) ov.
Proof.
  unfold calculateDiscount. cbv zeta.
  destruct (negb (isValid now p) || qlt ov (minOrderValue p)); intros H.
  - left. now injection H.
  - right. destruct (match discountType p with
                     | percentage => Num (ov * discount p / 100)
                     | fixed => match discountAmount p with
                                | Some a => Num a | None => NaN end
                     end) as [v|].
    + rewrite max_limit_num in H. simpl in H. injection H as <-. now exists v.
    + destruct (maxDiscountAmount p); discriminate.
Qed.

(** C2 (counterexample): a live 10% promo whose maxDiscountAmount is 0
    grants 100 on an order of 1000; the 0 cap is not applied. *)
Lemma max_discount_zero_not_applied :
  maxDiscountAmount Samples.promo_cap0 = Some 0 /\
  match calculateDiscount 50 Samples.promo_cap0 1000 with
  | Num x => x == 100 /\ 0 < x
  | NaN => False
  end.
Proof. split; vm_compute; [reflexivity|split; reflexivity]. Qed.

(** C2 (amended): for a promo whose usageLimit is set, calculateDiscount
    returns 0 when the promo is inactive, outside [startDate, endDate],
    exhausted (usageLimit nonzero and usedCount >= usageLimit) or the order
    value is below minOrderValue; otherwise it returns
    min(capped, orderValue), where the raw discount is
    orderValue * discount / 100 (percentage) or discountAmount (fixed, when
    set) and capped is maxDiscountAmount if that is set, nonzero and below
    the raw discount, the raw discount else. A number it returns never
    exceeds a non-negative order value, nor a nonzero maxDiscountAmount. *)
Theorem calculateDiscount_amended (now : Z) (p : promo) (ov l : Q) :
  usageLimit p = Some l ->
  ((isActive p = false \/ (now < startDate p)%Z \/ (endDate p < now)%Z \/
    (~ l == 0 /\ l <= usedCount p) \/ ov < minOrderValue p) ->
     calculateDiscount now p ov = Num 0) /\
  (isActive p = true -> (startDate p <= now <= endDate p)%Z ->
   (l == 0 \/ usedCount p < l) -> minOrderValue p <= ov ->
     (discountType p = percentage ->
        calculateDiscount now p ov =
          Num (qmin (apply_max_limit p (ov * discount p / 100)) ov)) /\
     (forall a, discountType p = fixed -> discountAmount p = Some a ->
        calculateDiscount now p ov = Num (qmin (apply_max_limit p a) ov))) /\
  (0 <= ov -> forall x, calculateDiscount now p ov = Num x -> x <= ov) /\
  (forall m x, maxDiscountAmount p = Some m -> ~ m == 0 -> 0 <= m ->
     calculateDiscount now p ov = Num x -> x <= m).
Proof.
  intros Hl. split; [|split; [|split]].
  - intros Hinv. unfold calculateDiscount.
    replace (negb (isValid now p) || qlt ov (minOrderValue p)) with true;
      [reflexivity|].
    symmetry. apply orb_true_iff.
    destruct Hinv as [H|[H|[H|[[Hnz Hle]|H]]]].
    + left. unfold isValid. now rewrite H.
    + left. unfold isValid. apply Z.leb_gt in H. rewrite H.
      now rewrite andb_false_r, andb_false_l.
    + left. unfold isValid. apply Z.leb_gt in H. rewrite H.
      now rewrite andb_false_r, andb_false_l.
    + left. unfold isValid, usage_ok. rewrite Hl.
      replace (Qeq_bool l 0) with false
        by (symmetry; apply not_true_iff_false; now rewrite Qeq_bool_iff).
      replace (qlt (usedCount p) l) with false
        by (symmetry; apply not_true_iff_false; intros E;
            apply qlt_true in E; lra).
      now rewrite !andb_false_r.
    + right. now apply qlt_intro.
  - intros Ha Hw Hu Hmin.
    assert (Hg : negb (isValid now p) || qlt ov (minOrderValue p) = false).
    { apply orb_false_iff. split.
      - apply negb_false_iff. unfold isValid, usage_ok. rewrite Ha, Hl.
        destruct Hw as [Hw1 Hw2]. apply Z.leb_le in Hw1, Hw2. rewrite Hw1, Hw2.
        simpl. destruct Hu as [Hu|Hu].
        + apply Qeq_bool_iff in Hu. now rewrite Hu.
        + rewrite (qlt_intro _ _ Hu). apply orb_true_r.
      - apply not_true_iff_false. intros E. apply qlt_true in E. lra. }
    split.
    + intros Ht. unfold calculateDiscount. rewrite Hg, Ht. cbv zeta.
      rewrite max_limit_num. reflexivity.
    + intros a Ht Hda. unfold calculateDiscount. rewrite Hg, Ht, Hda. cbv zeta.
      rewrite max_limit_num. reflexivity.
  - intros Hov x Hx. apply calculateDiscount_cases in Hx as [->|[v ->]].
    + exact Hov.
    + apply qmin_le_r.
  - intros m x Hm Hnz Hpos Hx. apply calculateDiscount_cases in Hx as [->|[v ->]].
    + exact Hpos.
    + pose proof (qmin_le_l (apply_max_limit p v) ov).
      pose proof (apply_max_limit_le p v m Hm Hnz). lra.
Qed.

Lemma calculateDiscount_amended_witness :
  calculateDiscount 50 Samples.promo_pct 1000 =
    Num (qmin (apply_max_limit Samples.promo_pct (1000 * 10 / 100)) 1000).
Proof.
  destruct (calculateDiscount_amended 50 Samples.promo_pct 1000 0 eq_refl)
    as [_ [H _]].
  refine (proj1 (H eq_refl _ (or_introl (Qeq_refl 0)) _) eq_refl).
  - simpl. lia.
  - vm_compute. discriminate.
Defined.

(** C10: for a promo whose usageLimit was never given, isValid is false
    and calculateDiscount returns 0 for every order value, while the
    status virtual reports an active promo inside its window as 'active'. *)
Theorem unset_usageLimit_never_valid (now : Z) (p : promo) :
  usageLimit p = None ->
  isValid now p = false /\
  (forall ov, calculateDiscount now p ov = Num 0) /\
  (isActive p = true -> (startDate p <= now <= endDate p)%Z ->
     status now p = "active"%string).
Proof.
  intros Hl.
  assert (Hv : isValid now p = false)
    by (unfold isValid, usage_ok; rewrite Hl; apply andb_false_r).
  split; [exact Hv|split].
  - intros ov. unfold calculateDiscount. now rewrite Hv.
  - intros Ha [H1 H2]. unfold status. rewrite Ha, Hl.
    replace (now <? startDate p)%Z with false by (symmetry; apply Z.ltb_ge; lia).
    replace (endDate p <? now)%Z with false by (symmetry; apply Z.ltb_ge; lia).
    reflexivity.
Qed.

Lemma unset_usageLimit_never_valid_witness :
  status 50 Samples.promo_nolimit = "active"%string.
Proof.
  destruct (unset_usageLimit_never_valid 50 Samples.promo_nolimit eq_refl)
    as [_ [_ H]].
  apply H; simpl; [reflexivity|lia].
Defined.

End PromoClaims.

(* ------------------------------------------------------------------ *)
(** * Facts about shipping prices *)

Module ShippingClaims.

Import Shipping.
Open Scope Q_scope.

Lemma Qle_bool_le (x y : Q) : x <= y -> Qle_bool x y = true.
Proof. apply Qle_bool_iff. Qed.

Lemma Qle_bool_gt (x y : Q) : y < x -> Qle_bool x y = false.
Proof.
  intros H. apply not_true_iff_false. rewrite Qle_bool_iff.
  now apply Qlt_not_le.
Qed.

(** C3: the band is chosen by inclusive upper bounds 50000, 100000,
    150000, 200000, the fifth band above; 50000 gets the first band's fee
    and 50001 the second's. *)
Theorem getShippingPrice_bands (t : shipPrice) (ov : Q) :
  (ov <= 50000 -> getShippingPrice t ov = price0to50k t) /\
  (50000 < ov -> ov <= 100000 -> getShippingPrice t ov = price50kto100k t) /\
  (100000 < ov -> ov <= 150000 -> getShippingPrice t ov = price100kto150k t) /\
  (150000 < ov -> ov <= 200000 -> getShippingPrice t ov = price150kto200k t) /\
  (200000 < ov -> getShippingPrice t ov = priceAbove200k t) /\
  getShippingPrice t 50000 = price0to50k t /\
  getShippingPrice t 50001 = price50kto100k t.
Proof.
  unfold getShippingPrice.
  repeat split; intros;
    repeat match goal with
           | |- context [Qle_bool ov ?b] =>
               first [ rewrite (Qle_bool_le ov b) by lra
                     | rewrite (Qle_bool_gt ov b) by lra ]
           end; reflexivity.
Qed.

Lemma getShippingPrice_bands_witness :
  getShippingPrice Samples.ship_table 60000 = 80.
Proof.
  destruct (getShippingPrice_bands Samples.ship_table 60000) as [_ [H _]].
  apply H; vm_compute; [reflexivity|discriminate].
Defined.

Lemma findActive_none (db : list shipPrice) (code : Z) :
  (forall t, In t db -> spItemCode t = code -> spIsActive t = false) ->
  findActive db code = None.
Proof.
  unfold findActive. induction db as [|t r IH]; intros H; simpl; [reflexivity|].
  destruct ((spItemCode t =? code)%Z && spIsActive t) eqn:E.
  - apply andb_true_iff in E as [E1 E2]. apply Z.eqb_eq in E1.
    rewrite (H t (or_introl eq_refl) E1) in E2. discriminate.
  - apply IH. intros t' Hin. apply H. now right.
Qed.

(** C8 (counterexample): with only a deactivated table for item 7, the
    model helper getShippingPriceForOrder returns the fee 0. *)
Lemma shipping_helper_defaults_to_zero :
  getShippingPriceForOrder [Samples.ship_inactive] 7 60000 = 0.
Proof. reflexivity. Qed.

(** C8 (amended): when no active table exists for the item code, the
    shipping calculation endpoint answers 404 not-found, while the model
    helper getShippingPriceForOrder returns 0. *)
Theorem no_active_table_lookup (db : list shipPrice) (code : Z) (ov : Q) :
  (forall t, In t db -> spItemCode t = code -> spIsActive t = false) ->
  getShippingPriceCtl db (Some code) (Some ov) = NotFound404 /\
  getShippingPriceForOrder db code ov = 0.
Proof.
  intros H. pose proof (findActive_none db code H) as Hn.
  unfold getShippingPriceCtl, getShippingPriceForOrder. now rewrite Hn.
Qed.

Lemma no_active_table_lookup_witness :
  getShippingPriceCtl [Samples.ship_inactive] (Some 7%Z) (Some 60000) = NotFound404.
Proof.
  refine (proj1 (no_active_table_lookup [Samples.ship_inactive] 7 60000 _)).
  intros t [<-|[]] _. reflexivity.
Defined.

End ShippingClaims.

(* ------------------------------------------------------------------ *)
(** * Facts about the simulated payment *)

Module PaymentClaims.

Import Order Payment OrderFacts.

(** C7: once the simulated payment completes, the callback writes status
    'payment_done' and appends its event, then writes 'order_confirmed'
    and appends its event: two separate transitions, in that order. *)
Theorem paymentCallback_two_steps (o : order) (c : string) (d : db) :
  validate o = true ->
  match paymentCallback o c d with
  | (r, d') =>
      r = Some tt /\
      trace d' = (trace d ++ [MarkPaid; WriteStatus "payment_done";
                              AppendEvent "payment_done";
                              WriteStatus "order_confirmed";
                              AppendEvent "order_confirmed"])%list /\
      history d' = (history d ++
        [mkEvent (leadId o) "payment_done" c "Payment processed successfully";
         mkEvent (leadId o) "order_confirmed" c
           "Order confirmed after successful payment"])%list /\
      stored d' = with_status o "order_confirmed" /\
      paymentStatus d' = "completed"
  end.
Proof.
  intros Hv.
  assert (H1 : updateStatus o "payment_done" = Some (with_status o "payment_done"))
    by (apply updateStatus_enum; [exact Hv | simpl; tauto]).
  assert (Hv1 : validate (with_status o "payment_done") = true)
    by (apply validate_with_status; [exact Hv | simpl; tauto]).
  assert (H2 : updateStatus (with_status o "payment_done") "order_confirmed" =
               Some (with_status (with_status o "payment_done") "order_confirmed"))
    by (apply updateStatus_enum; [exact Hv1 | simpl; tauto]).
  unfold paymentCallback, bind, markAsSuccessful, updateStatusM, createStatusUpdate.
  rewrite H1. cbn beta iota. rewrite H2. cbn.
  rewrite <- !app_assoc. repeat split.
Qed.

Lemma paymentCallback_two_steps_witness :
  fst (paymentCallback Samples.accepted_order "cust-1" Samples.payment_start) = Some tt.
Proof.
  pose proof (paymentCallback_two_steps Samples.accepted_order "cust-1"
                Samples.payment_start eq_refl) as H.
  destruct (paymentCallback Samples.accepted_order "cust-1" Samples.payment_start)
    as [r d'].
  exact (proj1 H).
Defined.

End PaymentClaims.

(* ------------------------------------------------------------------ *)
(** * Further properties of the order operations *)

Module OrderOpsFacts.

Import Order StatusCtl OrderOps OrderFacts.
Open Scope Z_scope.

Lemma fold_qty_acc (l : list item) (acc : Z) :
  fold_left (fun s it => s + qty it) l acc = acc + sum_qty l.
Proof.
  unfold sum_qty. revert acc; induction l as [|x r IH]; intros acc; simpl; [lia|].
  rewrite (IH (acc + qty x)), (IH (qty x)). lia.
Qed.

Lemma sum_qty_cons (x : item) (l : list item) : sum_qty (x :: l) = qty x + sum_qty l.
Proof. unfold sum_qty at 1. simpl. rewrite fold_qty_acc. lia. Qed.

Lemma sum_qty_snoc (l : list item) (x : item) : sum_qty (l ++ [x]) = sum_qty l + qty x.
Proof. unfold sum_qty at 1. rewrite fold_left_app. simpl. rewrite fold_qty_acc. lia. Qed.

Lemma update_nth_sum_qty (p : item -> bool) (f : item -> item) (q : Z) :
  (forall x, qty (f x) = qty x + q) ->
  forall l i, findIndex p l = Some i -> sum_qty (update_nth i f l) = sum_qty l + q.
Proof.
  intros Hf l. induction l as [|x r IH]; intros i Hi; simpl in Hi; [discriminate|].
  destruct (p x).
  - injection Hi as <-. simpl. rewrite !sum_qty_cons, Hf. lia.
  - destruct (findIndex p r) as [j|] eqn:Hj; simpl in Hi; [|discriminate].
    injection Hi as <-. simpl. rewrite !sum_qty_cons, (IH j eq_refl). lia.
Qed.

Lemma update_nth_codes (f : item -> item) :
  (forall x, itemCode (f x) = itemCode x) ->
  forall l i, map itemCode (update_nth i f l) = map itemCode l.
Proof.
  intros Hf l. induction l as [|x r IH]; intros [|i]; simpl; try reflexivity.
  - now rewrite Hf.
  - now rewrite IH.
Qed.

Lemma update_nth_in (p : item -> bool) (f : item -> item) :
  forall l i, findIndex p l = Some i -> exists x, In (f x) (update_nth i f l).
Proof.
  intros l. induction l as [|x r IH]; intros i Hi; simpl in Hi; [discriminate|].
  destruct (p x).
  - injection Hi as <-. exists x. simpl. now left.
  - destruct (findIndex p r) as [j|] eqn:Hj; simpl in Hi; [|discriminate].
    injection Hi as <-. destruct (IH j eq_refl) as [y Hy]. exists y. simpl. now right.
Qed.

Lemma findIndex_code_none (code : Z) (l : list item) :
  findIndex (fun it => itemCode it =? code) l = None -> ~ In code (map itemCode l).
Proof.
  induction l as [|x r IH]; simpl; [tauto|].
  destruct (itemCode x =? code) eqn:E; [discriminate|].
  destruct (findIndex _ r); [discriminate|]. intros _ [H|H].
  - apply Z.eqb_neq in E. contradiction.
  - now apply IH.
Qed.

Lemma NoDup_snoc {A} (l : list A) (x : A) : NoDup l -> ~ In x l -> NoDup (l ++ [x]).
Proof.
  induction l as [|a r IH]; intros Hn Hx; simpl.
  - constructor; [tauto|constructor].
  - apply NoDup_cons_iff in Hn as [Ha Hr]. constructor.
    + rewrite in_app_iff. simpl. intros [H|[H|[]]]; [contradiction|].
      subst. apply Hx. now left.
    + apply IH; [exact Hr|]. intros H. apply Hx. now right.
Qed.

Lemma save_items_valid (old new o' : order) :
  save old new = Some o' -> forall it, In it (items new) -> item_valid it = true.
Proof.
  intros Hs it Hin. apply save_inv in Hs as [Hv _].
  unfold validate in Hv. rewrite !andb_true_iff in Hv. destruct Hv as [[[Hl _] _] _].
  rewrite forallb_forall in Hl. now apply Hl.
Qed.

(** addItem raises the summed quantity of the order's lines by exactly the
    quantity added, whether it bumps an existing line or appends one. *)
Theorem addItem_adds_qty (o o' : order) (code q price : Z) :
  addItem o code q price = Some o' ->
  sum_qty (items o') = sum_qty (items o) + q.
Proof.
  unfold addItem. destruct (findIndex _ _) as [i|] eqn:Hi; intros Hs;
    apply save_inv in Hs as [_ ->]; rewrite pre_save_items; simpl.
  - eapply update_nth_sum_qty; [|exact Hi]. intros x. reflexivity.
  - now rewrite sum_qty_snoc.
Qed.

Lemma findIndex_code_some (code : Z) (l : list item) (i : nat) :
  findIndex (fun it => itemCode it =? code) l = Some i -> In code (map itemCode l).
Proof.
  revert i; induction l as [|x r IH]; intros i; simpl; [discriminate|].
  destruct (itemCode x =? code) eqn:E.
  - intros _. left. now apply Z.eqb_eq.
  - destruct (findIndex _ r) as [j|]; simpl; [|discriminate].
    intros _. right. exact (IH j eq_refl).
Qed.

Lemma validate_with_items (o : order) (l : list item) :
  validate o = true -> forallb item_valid l = true -> validate (with_items o l) = true.
Proof.
  intros Hv Hl. unfold validate, with_items in *.
  cbn [items totalAmount promoDiscount orderStatus] in *.
  rewrite !andb_true_iff in *. tauto.
Qed.

Lemma validate_with_totals (o : order) (q a : Z) :
  validate o = true -> 0 <= a -> validate (with_totals o q a) = true.
Proof.
  intros Hv Ha. unfold validate, with_totals in *.
  cbn [items totalAmount promoDiscount orderStatus] in *.
  rewrite !andb_true_iff in *. rewrite Z.leb_le. tauto.
Qed.

Lemma validate_pre_save (b : bool) (o : order) :
  validate o = true -> validate (pre_save b o) = true.
Proof.
  intros Hv. destruct b; [|exact Hv]. simpl. apply validate_with_totals; [exact Hv|].
  assert (Hs : 0 <= sum_cost (items o)).
  { apply sum_cost_nonneg. unfold validate in Hv. rewrite !andb_true_iff in Hv. tauto. }
  destruct (0 <? promoDiscount o); lia.
Qed.

Lemma removeItem_ok (o : order) (code : Z) :
  validate o = true ->
  exists o1, removeItem o code = Some o1 /\ validate o1 = true /\
    items o1 = filter (fun it => negb (itemCode it =? code)) (items o) /\
    orderStatus o1 = orderStatus o /\ isActive o1 = isActive o.
Proof.
  intros Hv. unfold removeItem, save.
  assert (Hl : forallb item_valid (filter (fun it => negb (itemCode it =? code)) (items o)) = true).
  { unfold validate in Hv. rewrite !andb_true_iff in Hv. destruct Hv as [[[Hl _] _] _].
    rewrite forallb_forall in *. intros x Hx. apply filter_In in Hx. apply Hl, Hx. }
  rewrite (validate_with_items _ _ Hv Hl). eexists. split; [reflexivity|].
  split; [apply validate_pre_save, validate_with_items; assumption|].
  destruct (items_modified _ _); simpl; auto.
Qed.

Lemma of_save_updateStatus (o o' : order) (s : string) :
  of_save (updateStatus o s) = Ok o' -> orderStatus o' = s.
Proof.
  unfold of_save. destruct (updateStatus o s) as [o1|] eqn:E; [|discriminate].
  intros H. injection H as <-. unfold updateStatus in E. apply save_inv in E as [_ ->].
  now rewrite pre_save_status.
Qed.

Lemma filter_all_code (code : Z) (l : list item) :
  Forall (fun it => itemCode it = code) l ->
  filter (fun it => negb (itemCode it =? code)) l = [].
Proof.
  induction 1 as [|x r Hx _ IH]; simpl; [reflexivity|].
  rewrite Hx, Z.eqb_refl. exact IH.
Qed.

Lemma paymentCallback_stored (o : order) (c : string) (d : Payment.db) :
  validate o = true ->
  Payment.stored (snd (Payment.paymentCallback o c d)) = with_status o "order_confirmed".
Proof.
  intros Hv.
  assert (H1 : updateStatus o "payment_done" = Some (with_status o "payment_done"))
    by (apply updateStatus_enum; [exact Hv | simpl; tauto]).
  assert (Hv1 : validate (with_status o "payment_done") = true)
    by (apply validate_with_status; [exact Hv | simpl; tauto]).
  assert (H2 : updateStatus (with_status o "payment_done") "order_confirmed" =
               Some (with_status (with_status o "payment_done") "order_confirmed"))
    by (apply updateStatus_enum; [exact Hv1 | simpl; tauto]).
  unfold Payment.paymentCallback, Payment.bind, Payment.markAsSuccessful,
    Payment.updateStatusM, Payment.createStatusUpdate.
  rewrite H1. cbn beta iota. rewrite H2. reflexivity.
Qed.

(** addItem keeps the item codes of an order's lines pairwise distinct: an
    existing code is bumped in place, a new one appended once. *)
Theorem addItem_keeps_codes_unique (o o' : order) (code q price : Z) :
  NoDup (map itemCode (items o)) ->
  addItem o code q price = Some o' ->
  NoDup (map itemCode (items o')).
Proof.
  intros Hnd. unfold addItem. destruct (findIndex _ _) as [i|] eqn:Hi; intros Hs;
    apply save_inv in Hs as [_ ->]; rewrite pre_save_items; simpl.
  - rewrite update_nth_codes; [exact Hnd | intros x; reflexivity].
  - rewrite map_app. simpl. apply NoDup_snoc; [exact Hnd|].
    exact (findIndex_code_none _ _ Hi).
Qed.

(** addItem never saves a line priced below zero, and never adds a new line
    with a quantity below 1: the save is rejected by the schema validators. *)
Theorem addItem_rejects (o : order) (code q price : Z) :
  (price < 0 -> addItem o code q price = None) /\
  (~ In code (map itemCode (items o)) -> q < 1 -> addItem o code q price = None).
Proof.
  split.
  - intros Hp. destruct (addItem o code q price) as [o'|] eqn:Ha; [exfalso|reflexivity].
    unfold addItem in Ha. destruct (findIndex _ _) as [i|] eqn:Hi;
      pose proof (save_items_valid _ _ _ Ha) as Hv; simpl in Hv.
    + destruct (update_nth_in _ (fun it => mkItem (itemCode it) (qty it + q) (unitPrice it)
                                  ((qty it + q) * price)) _ _ Hi) as [x Hx].
      apply Hv in Hx. unfold item_valid in Hx. simpl in Hx.
      rewrite !andb_true_iff, !Z.leb_le in Hx. nia.
    + specialize (Hv (mkItem code q price (q * price))).
      rewrite in_app_iff in Hv. unfold item_valid in Hv. simpl in Hv.
      specialize (Hv (or_intror (or_introl eq_refl))).
      rewrite !andb_true_iff, !Z.leb_le in Hv. lia.
  - intros Hn Hq. destruct (addItem o code q price) as [o'|] eqn:Ha; [exfalso|reflexivity].
    unfold addItem in Ha. destruct (findIndex _ _) as [i|] eqn:Hi.
    + exact (Hn (findIndex_code_some _ _ _ Hi)).
    + pose proof (save_items_valid _ _ _ Ha) as Hv; simpl in Hv.
      specialize (Hv (mkItem code q price (q * price))).
      rewrite in_app_iff in Hv. unfold item_valid in Hv. simpl in Hv.
      specialize (Hv (or_intror (or_introl eq_refl))).
      rewrite !andb_true_iff, !Z.leb_le in Hv. lia.
Qed.

(** After a save that changed the lines, calculateTotal agrees with what the
    pre('save') hook stored: its subtotal is the sum of the line costs and
    its total is the stored totalAmount. *)
Theorem calculateTotal_matches_saved (old new o' : order) :
  save old new = Some o' -> items o' <> items old ->
  subtotal (calculateTotal o') = sum_cost (items o') /\
  totals_promoDiscount (calculateTotal o') = promoDiscount o' /\
  total (calculateTotal o') = totalAmount o'.
Proof.
  intros Hs Hne. destruct (save_modified_totals _ _ _ Hs Hne) as [Ha _].
  unfold calculateTotal. simpl. auto.
Qed.

(** removeFromCart only acts on a pending, active order (otherwise 404).
    Removing the last item code of a valid cart saves it empty, with zero
    totals, and deactivates it. *)
Theorem removeFromCart_empties_and_deactivates (o : order) (code : Z) :
  (orderStatus o <> "pending" \/ isActive o = false -> removeFromCart o code = Rejected 404) /\
  (validate o = true -> orderStatus o = "pending" -> isActive o = true ->
   items o <> [] -> Forall (fun it => itemCode it = code) (items o) ->
   exists o2, removeFromCart o code = Ok o2 /\ isActive o2 = false /\
     items o2 = [] /\ totalQty o2 = 0 /\ totalAmount o2 = 0).
Proof.
  split.
  - intros H. unfold removeFromCart.
    destruct H as [H|H].
    + apply String.eqb_neq in H. now rewrite H.
    + rewrite H, orb_true_r. reflexivity.
  - intros Hv Hs Ha Hne Hall. unfold removeFromCart. rewrite Hs, Ha. cbn [String.eqb Ascii.eqb Bool.eqb negb orb].
    unfold removeItem, save. rewrite (filter_all_code _ _ Hall).
    rewrite (validate_with_items _ [] Hv eq_refl).
    assert (Hm : items_modified o (with_items o []) = true).
    { unfold items_modified. simpl. destruct (items o); [contradiction|reflexivity]. }
    rewrite Hm. cbn [length Nat.eqb].
    set (o1 := pre_save true (with_items o [])).
    assert (Hv1 : validate o1 = true)
      by (apply validate_pre_save, validate_with_items; [exact Hv | reflexivity]).
    change (validate (with_active o1 false)) with (validate o1). rewrite Hv1.
    assert (Hm1 : items_modified o1 (with_active o1 false) = false)
      by (unfold items_modified; cbn [items with_active]; rewrite items_eqb_refl; reflexivity).
    rewrite Hm1. simpl. eexists. split; [reflexivity|].
    subst o1. simpl. repeat split.
    destruct (0 <? promoDiscount o) eqn:E; [apply Z.ltb_lt in E; lia | reflexivity].
Qed.

(** Removing one item code from a pending, active, valid cart that has lines
    with other codes keeps it active, with exactly those other lines. *)
Theorem removeFromCart_keeps_other_lines (o : order) (code : Z) :
  validate o = true -> orderStatus o = "pending" -> isActive o = true ->
  Exists (fun it => itemCode it <> code) (items o) ->
  exists o2, removeFromCart o code = Ok o2 /\ isActive o2 = true /\
    items o2 = filter (fun it => negb (itemCode it =? code)) (items o) /\
    ~ In code (map itemCode (items o2)).
Proof.
  intros Hv Hs Ha Hex. destruct (removeItem_ok o code Hv) as [o1 [Hr [Hv1 [Hi1 [_ Ha1]]]]].
  unfold removeFromCart. rewrite Hs, Ha. cbn [String.eqb Ascii.eqb Bool.eqb negb orb].
  rewrite Hr.
  assert (Hlen : (length (items o1) =? 0)%nat = false).
  { apply Nat.eqb_neq. rewrite Hi1. apply Exists_exists in Hex as [x [Hx Hc]].
    intros Hz. apply length_zero_iff_nil in Hz.
    assert (Hin : In x (filter (fun it => negb (itemCode it =? code)) (items o))).
    { apply filter_In. split; [exact Hx|]. apply Z.eqb_neq in Hc. now rewrite Hc. }
    rewrite Hz in Hin. exact Hin. }
  rewrite Hlen. unfold save. rewrite Hv1.
  unfold items_modified. rewrite items_eqb_refl. simpl.
  eexists. split; [reflexivity|]. split; [congruence|]. split; [exact Hi1|].
  rewrite Hi1. intros Hin. apply in_map_iff in Hin as [x [Hc Hx]].
  apply filter_In in Hx as [_ Hx]. rewrite Hc, Z.eqb_refl in Hx. discriminate.
Qed.

(** The vendor can accept or reject an order only while it is pending:
    acceptance stores 'vendor_accepted', rejection 'cancelled', any other
    status gives 404, and a valid pending active order is always accepted
    or rejected. *)
Theorem vendor_decision_requires_pending (o : order) :
  (forall o', acceptOrder o = Ok o' ->
     orderStatus o = "pending" /\ orderStatus o' = "vendor_accepted") /\
  (forall o', rejectOrder o = Ok o' ->
     orderStatus o = "pending" /\ orderStatus o' = "cancelled") /\
  (orderStatus o <> "pending" -> acceptOrder o = Rejected 404 /\ rejectOrder o = Rejected 404) /\
  (validate o = true -> isActive o = true -> orderStatus o = "pending" ->
     acceptOrder o = Ok (with_status o "vendor_accepted") /\
     rejectOrder o = Ok (with_status o "cancelled")).
Proof.
  unfold acceptOrder, rejectOrder.
  destruct (String.eqb (orderStatus o) "pending") eqn:E.
  - apply String.eqb_eq in E. cbn [andb].
    split; [|split; [|split]].
    + intros o' H. destruct (isActive o); [|discriminate].
      split; [exact E | exact (of_save_updateStatus _ _ _ H)].
    + intros o' H. destruct (isActive o); [|discriminate].
      split; [exact E | exact (of_save_updateStatus _ _ _ H)].
    + intros Hn. contradiction.
    + intros Hv Ha _. rewrite Ha.
      rewrite !updateStatus_enum by (exact Hv || (simpl; tauto)). split; reflexivity.
  - apply String.eqb_neq in E. cbn [andb].
    split; [|split; [|split]]; intros; try discriminate; try contradiction.
    split; reflexivity.
Qed.

(** confirmOrder moves an order to 'order_confirmed' only from
    'payment_done'; an active order in any other status gets 400. *)
Theorem confirmOrder_requires_payment (o : order) :
  (forall o', confirmOrder o = Ok o' ->
     orderStatus o = "payment_done" /\ orderStatus o' = "order_confirmed") /\
  (isActive o = true -> orderStatus o <> "payment_done" -> confirmOrder o = Rejected 400) /\
  (validate o = true -> isActive o = true -> orderStatus o = "payment_done" ->
     confirmOrder o = Ok (with_status o "order_confirmed")).
Proof.
  unfold confirmOrder. destruct (isActive o); simpl.
  - destruct (String.eqb (orderStatus o) "payment_done") eqn:E; simpl.
    + apply String.eqb_eq in E. repeat split; intros.
      * exact E.
      * eapply of_save_updateStatus; eauto.
      * contradiction.
      * rewrite updateStatus_enum; [reflexivity|exact H|simpl; tauto].
    + apply String.eqb_neq in E. repeat split; intros; try discriminate; contradiction.
  - repeat split; intros; discriminate.
Qed.

(** markDelivered has no status guard: any valid active order is marked
    delivered, whatever its status, a cancelled one included. *)
Theorem markDelivered_any_status (o : order) :
  validate o = true -> isActive o = true ->
  markDelivered o = Ok (with_status o "delivered").
Proof.
  intros Hv Ha. unfold markDelivered. rewrite Ha. simpl.
  rewrite updateStatus_enum; [reflexivity|exact Hv|simpl; tauto].
Qed.

(** The endpoints compose along the happy path: a valid pending cart is
    accepted by its vendor, found by its customer's payment request, paid
    (the callback confirms it), shipped and delivered by its vendor, after
    which the admin can no longer cancel it. *)
Theorem order_happy_path (o : order) (c : string) (d : Payment.db) :
  validate o = true -> isActive o = true -> orderStatus o = "pending" ->
  let o1 := with_status o "vendor_accepted" in
  let o2 := with_status o1 "order_confirmed" in
  let o3 := with_status o2 "shipped" in
  let o4 := with_status o3 "delivered" in
  acceptOrder o = Ok o1 /\
  processPayment_order (custUserId o) o1 = Some o1 /\
  Payment.stored (snd (Payment.paymentCallback o1 c d)) = o2 /\
  updateVendorOrderStatus (vendorId o) o2 "shipped" = Ok o3 /\
  updateVendorOrderStatus (vendorId o) o3 "delivered" = Ok o4 /\
  cancelOrder o4 = Rejected 400.
Proof.
  intros Hv Ha Hs o1 o2 o3 o4.
  assert (Hv1 : validate o1 = true) by (apply validate_with_status; [exact Hv|simpl; tauto]).
  assert (Hv2 : validate o2 = true) by (apply validate_with_status; [exact Hv1|simpl; tauto]).
  assert (Hv3 : validate o3 = true) by (apply validate_with_status; [exact Hv2|simpl; tauto]).
  split; [|split; [|split; [|split; [|split]]]].
  - unfold acceptOrder. rewrite Hs, Ha. simpl.
    rewrite updateStatus_enum; [reflexivity|exact Hv|simpl; tauto].
  - unfold processPayment_order. simpl. now rewrite String.eqb_refl, Ha.
  - apply paymentCallback_stored. exact Hv1.
  - unfold updateVendorOrderStatus, vendor_finds. simpl. rewrite String.eqb_refl, Ha. simpl.
    rewrite updateStatus_enum; [reflexivity|exact Hv2|simpl; tauto].
  - unfold updateVendorOrderStatus, vendor_finds. simpl. rewrite String.eqb_refl, Ha. simpl.
    rewrite updateStatus_enum; [reflexivity|exact Hv3|simpl; tauto].
  - unfold cancelOrder, admin_finds. simpl. now rewrite Ha.
Qed.

End OrderOpsFacts.

Module OrderOpsWitnesses.

Import Order StatusCtl OrderOps OrderOpsFacts.
Open Scope Z_scope.

Lemma addItem_adds_qty_witness :
  exists o', addItem Samples.cart 1 2 100 = Some o' /\
             sum_qty (items o') = sum_qty (items Samples.cart) + 2.
Proof.
  eexists. split; [reflexivity|].
  apply (addItem_adds_qty Samples.cart _ 1 2 100). reflexivity.
Defined.

Lemma addItem_keeps_codes_unique_witness :
  exists o', addItem Samples2.cart2 3 1 10 = Some o' /\ NoDup (map itemCode (items o')).
Proof.
  eexists. split; [reflexivity|].
  apply (addItem_keeps_codes_unique Samples2.cart2 _ 3 1 10); [|reflexivity].
  simpl. constructor; [simpl; lia|]. constructor; [simpl; tauto|constructor].
Defined.

Lemma addItem_rejects_witness :
  addItem Samples.cart 1 1 (-5) = None /\ addItem Samples.cart 9 0 10 = None.
Proof.
  split.
  - apply (proj1 (addItem_rejects Samples.cart 1 1 (-5))). lia.
  - apply (proj2 (addItem_rejects Samples.cart 9 0 10)); [simpl; lia | lia].
Defined.

Lemma calculateTotal_matches_saved_witness :
  exists o', save Samples.cart (with_items Samples.cart [mkItem 1 4 100 400]) = Some o' /\
             total (calculateTotal o') = totalAmount o'.
Proof.
  eexists. split; [reflexivity|].
  apply (calculateTotal_matches_saved Samples.cart
           (with_items Samples.cart [mkItem 1 4 100 400])); [reflexivity | discriminate].
Defined.

Lemma removeFromCart_empties_and_deactivates_witness :
  removeFromCart Samples.delivered_order 1 = Rejected 404 /\
  exists o2, removeFromCart Samples.cart 1 = Ok o2 /\ isActive o2 = false /\
    items o2 = [] /\ totalQty o2 = 0 /\ totalAmount o2 = 0.
Proof.
  split.
  - apply (proj1 (removeFromCart_empties_and_deactivates Samples.delivered_order 1)).
    left. discriminate.
  - apply (proj2 (removeFromCart_empties_and_deactivates Samples.cart 1));
      [reflexivity | reflexivity | reflexivity | discriminate | repeat constructor].
Defined.

Lemma removeFromCart_keeps_other_lines_witness :
  exists o2, removeFromCart Samples2.cart2 1 = Ok o2 /\ isActive o2 = true /\
    items o2 = filter (fun it => negb (itemCode it =? 1)) (items Samples2.cart2) /\
    ~ In 1 (map itemCode (items o2)).
Proof.
  apply removeFromCart_keeps_other_lines; [reflexivity | reflexivity | reflexivity |].
  apply Exists_cons_tl, Exists_cons_hd. simpl. lia.
Defined.

Lemma vendor_decision_requires_pending_witness :
  acceptOrder Samples.cart = Ok (with_status Samples.cart "vendor_accepted") /\
  rejectOrder Samples.cart = Ok (with_status Samples.cart "cancelled") /\
  acceptOrder Samples.shipped_order = Rejected 404.
Proof.
  split; [|split].
  - apply (proj2 (proj2 (proj2 (vendor_decision_requires_pending Samples.cart))));
      reflexivity.
  - apply (proj2 (proj2 (proj2 (vendor_decision_requires_pending Samples.cart))));
      reflexivity.
  - apply (proj1 (proj2 (proj2 (vendor_decision_requires_pending Samples.shipped_order)))).
    discriminate.
Defined.

Lemma confirmOrder_requires_payment_witness :
  confirmOrder Samples2.paid_order = Ok (with_status Samples2.paid_order "order_confirmed") /\
  confirmOrder Samples.accepted_order = Rejected 400.
Proof.
  split.
  - apply (proj2 (proj2 (confirmOrder_requires_payment Samples2.paid_order)));
      reflexivity.
  - apply (proj1 (proj2 (confirmOrder_requires_payment Samples.accepted_order)));
      [reflexivity | discriminate].
Defined.

Lemma markDelivered_any_status_witness :
  markDelivered Samples2.cancelled_order =
  Ok (with_status Samples2.cancelled_order "delivered").
Proof. apply markDelivered_any_status; reflexivity. Defined.

Lemma order_happy_path_witness :
  cancelOrder (with_status (with_status (with_status (with_status Samples.cart
    "vendor_accepted") "order_confirmed") "shipped") "delivered") = Rejected 400.
Proof.
  exact (proj2 (proj2 (proj2 (proj2 (proj2 (order_happy_path Samples.cart "cust-1"
    Samples.payment_start eq_refl eq_refl eq_refl)))))).
Defined.

End OrderOpsWitnesses.

(* ------------------------------------------------------------------ *)
(** * Further properties of the promo operations *)

Module PromoOpsFacts.

Import Promo PromoOps PromoClaims.
Open Scope Q_scope.

Lemma qle_bool_true (a b : Q) : Qle_bool a b = true -> a <= b.
Proof. apply Qle_bool_iff. Qed.

Lemma promo_validate_bounds (p : promo) :
  promo_validate p = true ->
  0 <= discount p /\ discount p <= 100 /\ opt_nonneg (discountAmount p) = true /\
  0 <= minOrderValue p /\ opt_nonneg (maxDiscountAmount p) = true /\
  opt_nonneg (usageLimit p) = true /\ 0 <= usedCount p.
Proof.
  unfold promo_validate. rewrite !andb_true_iff.
  intros [[[[[[H1 H2] H3] H4] H5] H6] H7].
  apply qle_bool_true in H1, H2, H4, H7. tauto.
Qed.

Lemma promo_validate_usedCount (p : promo) (u : Q) :
  promo_validate p = true -> 0 <= u -> promo_validate (with_usedCount p u) = true.
Proof.
  unfold promo_validate, with_usedCount. cbn.
  rewrite !andb_true_iff. intros [H _] Hu. split; [exact H|]. now apply Qle_bool_iff.
Qed.

Lemma inject_nat_succ (k : nat) :
  inject_Z (Z.of_nat (S k)) == inject_Z (Z.of_nat k) + 1.
Proof.
  rewrite Nat2Z.inj_succ, <- Z.add_1_r, inject_Z_plus. reflexivity.
Qed.

Lemma usePromo_n_limited (k : nat) :
  forall p l, usageLimit p = Some l -> 0 < l -> promo_validate p = true ->
  exists p', usePromo_n k p = Some p' /\ p' = with_usedCount p (usedCount p') /\
             usedCount p' == usedCount p + inject_Z (Z.of_nat k) /\
             promo_validate p' = true.
Proof.
  induction k as [|k IH]; intros p l Hl Hpos Hv.
  - exists p. split; [reflexivity|]. split; [destruct p; reflexivity|].
    split; [change (inject_Z (Z.of_nat 0)) with 0; lra | exact Hv].
  - assert (Hu : 0 <= usedCount p) by (apply promo_validate_bounds in Hv; tauto).
    assert (Hv1 : promo_validate (with_usedCount p (usedCount p + 1)) = true)
      by (apply promo_validate_usedCount; [exact Hv | lra]).
    simpl. unfold usePromo. rewrite Hl, (qlt_intro _ _ Hpos), Hv1.
    destruct (IH (with_usedCount p (usedCount p + 1)) l Hl Hpos Hv1)
      as [p' [Hn [Hp' [Hc Hv']]]].
    exists p'. split; [exact Hn|]. split; [exact Hp'|]. split; [|exact Hv'].
    unfold with_usedCount in Hc. cbn [usedCount] in Hc.
    pose proof (inject_nat_succ k) as HS. cbn [Z.of_nat] in HS |- *. lra.
Qed.

Lemma qmin_nonneg (x y : Q) : 0 <= x -> 0 <= y -> 0 <= qmin x y.
Proof. unfold qmin. destruct (qlt y x); auto. Qed.

Lemma calculateDiscount_range (now : Z) (p : promo) (ov : Q) :
  promo_validate p = true -> 0 <= ov ->
  (discountType p = fixed -> discountAmount p <> None) ->
  exists x, calculateDiscount now p ov = Num x /\ 0 <= x /\ x <= ov.
Proof.
  intros Hv Hov Hfix. apply promo_validate_bounds in Hv as (Hd0 & Hd1 & Ha & _ & Hm & _).
  assert (Hcap : forall v, 0 <= v -> 0 <= apply_max_limit p v).
  { intros v Hv. unfold apply_max_limit. destruct (maxDiscountAmount p) as [m|]; [|exact Hv].
    destruct (negb (Qeq_bool m 0) && qlt m v); [|exact Hv].
    simpl in Hm. now apply qle_bool_true. }
  unfold calculateDiscount. cbv zeta.
  destruct (negb (isValid now p) || qlt ov (minOrderValue p)).
  - exists 0. split; [reflexivity|lra].
  - destruct (discountType p) eqn:Ht.
    + rewrite max_limit_num. simpl. eexists. split; [reflexivity|].
      split; [|apply qmin_le_r]. apply qmin_nonneg; [|exact Hov]. apply Hcap.
      unfold Qdiv. apply Qmult_le_0_compat; [nra|]. apply Qinv_le_0_compat. lra.
    + destruct (discountAmount p) as [a|] eqn:Ha'; [|exfalso; now apply Hfix].
      rewrite max_limit_num. simpl. eexists. split; [reflexivity|].
      split; [|apply qmin_le_r]. apply qmin_nonneg; [|exact Hov]. apply Hcap.
      simpl in Ha. now apply qle_bool_true.
Qed.

(** When usageLimit is set (non-negative, as the schema requires), the
    [status] virtual reads 'active' exactly when isValid holds. *)
Theorem status_active_iff_isValid (now : Z) (p : promo) (l : Q) :
  usageLimit p = Some l -> 0 <= l ->
  (status now p = "active" <-> isValid now p = true).
Proof.
  intros Hl Hl0. unfold status, isValid, usage_ok. rewrite Hl.
  destruct (isActive p); cbn [negb andb]; [|split; discriminate].
  destruct (Z.ltb_spec now (startDate p)); destruct (Z.leb_spec (startDate p) now);
    try lia; cbn [andb]; [split; discriminate|].
  destruct (Z.ltb_spec (endDate p) now); destruct (Z.leb_spec now (endDate p));
    try lia; cbn [andb]; [split; discriminate|].
  destruct (Qeq_bool l 0) eqn:E.
  - apply Qeq_bool_iff in E.
    assert (Hq : qlt 0 l = false).
    { destruct (qlt 0 l) eqn:F; [apply qlt_true in F; lra | reflexivity]. }
    rewrite Hq. cbn. split; reflexivity.
  - assert (Hpos : 0 < l).
    { destruct (Qlt_le_dec 0 l) as [Hlt|Hge]; [exact Hlt|].
      exfalso. assert (Hq : l == 0) by lra. apply Qeq_bool_iff in Hq. congruence. }
    rewrite (qlt_intro _ _ Hpos). cbn [andb orb]. unfold qlt.
    destruct (Qle_bool l (usedCount p)); cbn; split; congruence.
Qed.

(** With usageLimit 0 (unlimited) or unset, usePromo leaves the document as
    it is: a valid promo can be used any number of times and usedCount
    never moves. *)
Theorem usePromo_unlimited_keeps_count (p : promo) (k : nat) :
  (usageLimit p = None \/ exists l, usageLimit p = Some l /\ l == 0) ->
  promo_validate p = true ->
  usePromo_n k p = Some p.
Proof.
  intros Hl Hv. induction k as [|k IH]; [reflexivity|].
  simpl. unfold usePromo.
  destruct Hl as [Hl | [l [Hl Hz]]]; rewrite Hl.
  - rewrite Hv. exact IH.
  - assert (H0 : qlt 0 l = false).
    { destruct (qlt 0 l) eqn:F; [apply qlt_true in F; lra | reflexivity]. }
    rewrite H0, Hv. exact IH.
Qed.

(** A live promo with usageLimit n > 0 and nothing used stays valid for its
    first n - 1 uses, and after n uses it is no longer valid and its status
    reads 'exhausted'. *)
Theorem usePromo_exhausts (now : Z) (p : promo) (n : nat) :
  usageLimit p = Some (inject_Z (Z.of_nat n)) -> (0 < n)%nat -> usedCount p == 0 ->
  promo_validate p = true -> isActive p = true ->
  (startDate p <= now <= endDate p)%Z ->
  (forall k, (k < n)%nat -> exists p', usePromo_n k p = Some p' /\ isValid now p' = true) /\
  (exists p', usePromo_n n p = Some p' /\ isValid now p' = false /\
              status now p' = "exhausted").
Proof.
  intros Hl Hn Hu Hv Ha Hd.
  assert (Hpos : 0 < inject_Z (Z.of_nat n))
    by (change 0 with (inject_Z 0); rewrite <- Zlt_Qlt; lia).
  assert (Hz : Qeq_bool (inject_Z (Z.of_nat n)) 0 = false).
  { apply not_true_iff_false. rewrite Qeq_bool_iff. lra. }
  assert (Hs : (startDate p <=? now)%Z = true) by (apply Z.leb_le; lia).
  assert (He : (now <=? endDate p)%Z = true) by (apply Z.leb_le; lia).
  split.
  - intros k Hk.
    destruct (usePromo_n_limited k p _ Hl Hpos Hv) as [p' [Hk' [Hp' [Hc _]]]].
    exists p'. split; [exact Hk'|]. rewrite Hp'.
    unfold isValid, usage_ok, with_usedCount. cbn [isActive startDate endDate usageLimit usedCount].
    rewrite Ha, Hs, He, Hl, Hz. cbn [andb orb]. apply qlt_intro.
    assert (inject_Z (Z.of_nat k) < inject_Z (Z.of_nat n)) by (rewrite <- Zlt_Qlt; lia).
    lra.
  - destruct (usePromo_n_limited n p _ Hl Hpos Hv) as [p' [Hk' [Hp' [Hc _]]]].
    exists p'. split; [exact Hk'|].
    assert (Hle : Qle_bool (inject_Z (Z.of_nat n)) (usedCount p') = true)
      by (apply Qle_bool_iff; lra).
    rewrite Hp'. split.
    + unfold isValid, usage_ok, with_usedCount. cbn [isActive startDate endDate usageLimit usedCount].
      rewrite Hl, Hz. unfold qlt. rewrite Hle. cbn [negb orb]. apply andb_false_r.
    + unfold status, with_usedCount. cbn [isActive startDate endDate usageLimit usedCount].
      rewrite Ha, Hl, (qlt_intro _ _ Hpos), Hle. cbn [negb andb].
      destruct (Z.ltb_spec now (startDate p)); [lia|].
      destruct (Z.ltb_spec (endDate p) now); [lia|]. reflexivity.
Qed.

(** The calculatePromoDiscount endpoint answers 404 for an unknown promo;
    for a schema-valid promo (a fixed one with its amount set) and a
    non-negative order value, the discount and the final amount are both
    between 0 and the order value, and they add up to it. *)
Theorem calculatePromoDiscount_in_range (now : Z) (p : promo) (ov : Q) :
  calculatePromoDiscount now None ov = PromoNotFound /\
  (promo_validate p = true -> 0 <= ov ->
   (discountType p = fixed -> discountAmount p <> None) ->
   exists x, calculatePromoDiscount now (Some p) ov =
             PromoOk (mkReply (Num x) (Num (ov - x)) (isValid now p)) /\
             0 <= x <= ov /\ 0 <= ov - x <= ov).
Proof.
  split; [reflexivity|]. intros Hv Hov Hfix.
  destruct (calculateDiscount_range now p ov Hv Hov Hfix) as [x [Hx [H0 H1]]].
  exists x. unfold calculatePromoDiscount. rewrite Hx.
  split; [reflexivity|]. lra.
Qed.

End PromoOpsFacts.

Module PromoOpsWitnesses.

Import Promo PromoOps PromoOpsFacts.
Open Scope Q_scope.

Lemma status_active_iff_isValid_witness :
  status 50 Samples2.promo_limit2 = "active" <-> isValid 50 Samples2.promo_limit2 = true.
Proof. apply (status_active_iff_isValid 50 Samples2.promo_limit2 2); [reflexivity | lra]. Defined.

Lemma usePromo_unlimited_keeps_count_witness :
  usePromo_n 3 Samples.promo_pct = Some Samples.promo_pct.
Proof.
  apply usePromo_unlimited_keeps_count; [|reflexivity].
  right. exists 0. split; [reflexivity | lra].
Defined.

Lemma usePromo_exhausts_witness :
  exists p', usePromo_n 2 Samples2.promo_limit2 = Some p' /\
             isValid 50 p' = false /\ status 50 p' = "exhausted".
Proof.
  apply (usePromo_exhausts 50 Samples2.promo_limit2 2);
    [reflexivity | lia | reflexivity | reflexivity | reflexivity | simpl; lia].
Defined.

Lemma calculatePromoDiscount_in_range_witness :
  exists x, calculatePromoDiscount 50 (Some Samples.promo_pct) 200 =
            PromoOk (mkReply (Num x) (Num (200 - x)) (isValid 50 Samples.promo_pct)) /\
            0 <= x <= 200 /\ 0 <= 200 - x <= 200.
Proof.
  apply (proj2 (calculatePromoDiscount_in_range 50 Samples.promo_pct 200));
    [reflexivity | lra | discriminate].
Defined.

End PromoOpsWitnesses.

(* ------------------------------------------------------------------ *)
(** * Access rules, shipping lookups and prices *)

Module AccessFacts.

Import Access.

(** canAccess (the same rule in Promo, InventoryShipPrice and
    InventoryPrice): admins and managers reach every document, a vendor
    exactly the documents it owns (active or not), employees and customers
    exactly the active ones, and any other role none. *)
Theorem canAccess_by_role (owner : Z) (active : bool) (u : user) :
  (role u = "admin" \/ role u = "manager" -> canAccess owner active u = true) /\
  (role u = "vendor" -> canAccess owner active u = (owner =? userId u)%Z) /\
  (role u = "employee" \/ role u = "customer" -> canAccess owner active u = active) /\
  (~ In (role u) ["admin"; "manager"; "vendor"; "employee"; "customer"] ->
   canAccess owner active u = false).
Proof.
  unfold canAccess. split; [|split; [|split]].
  - intros [H|H]; rewrite H; reflexivity.
  - intros H. rewrite H. cbn. destruct (owner =? userId u)%Z; reflexivity.
  - intros [H|H]; rewrite H; reflexivity.
  - intros Hn. simpl in Hn.
    assert (Hne : forall s, In s ["admin"; "manager"; "vendor"; "employee"; "customer"] ->
                            String.eqb (role u) s = false).
    { intros s Hs. apply String.eqb_neq. intros Heq. rewrite <- Heq in Hs. simpl in Hs. tauto. }
    rewrite (Hne "admin"), (Hne "manager"), (Hne "vendor") by (simpl; tauto).
    cbn [andb].
    destruct (Order.str_in (role u) ["employee"; "customer"]) eqn:E; [|reflexivity].
    apply OrderFacts.str_in_In in E. simpl in E. tauto.
Qed.

End AccessFacts.

Module ShippingFacts.

Import Shipping ShippingClaims.
Open Scope Q_scope.

Ltac qle_cases :=
  repeat match goal with
         | |- context [Qle_bool ?x ?b] =>
             let E := fresh "E" in
             destruct (Qle_bool x b) eqn:E;
             [apply Qle_bool_iff in E
             | apply not_true_iff_false in E; rewrite Qle_bool_iff in E;
               apply Qnot_le_lt in E]
         end.

Lemma findActive_unique (db : list shipPrice) (t : shipPrice) (code : Z) :
  NoDup (map spItemCode db) -> In t db -> spItemCode t = code -> spIsActive t = true ->
  findActive db code = Some t.
Proof.
  unfold findActive. induction db as [|x r IH]; intros Hnd Hin Hc Ha; [destruct Hin|].
  simpl in Hnd. apply NoDup_cons_iff in Hnd as [Hx Hr]. simpl.
  destruct ((spItemCode x =? code)%Z && spIsActive x) eqn:E.
  - destruct Hin as [->|Hin]; [reflexivity|].
    apply andb_true_iff in E as [E _]. apply Z.eqb_eq in E.
    exfalso. apply Hx. rewrite E, <- Hc. now apply in_map.
  - destruct Hin as [->|Hin].
    + rewrite Hc, Z.eqb_refl, Ha in E. discriminate.
    + exact (IH Hr Hin Hc Ha).
Qed.

(** When the fees of a table fall (or rise) band after band, the fee that
    getShippingPrice charges falls (or rises) with the order value. *)
Theorem getShippingPrice_monotone (t : shipPrice) (ov1 ov2 : Q) :
  ov1 <= ov2 ->
  (price50kto100k t <= price0to50k t /\ price100kto150k t <= price50kto100k t /\
   price150kto200k t <= price100kto150k t /\ priceAbove200k t <= price150kto200k t ->
   getShippingPrice t ov2 <= getShippingPrice t ov1) /\
  (price0to50k t <= price50kto100k t /\ price50kto100k t <= price100kto150k t /\
   price100kto150k t <= price150kto200k t /\ price150kto200k t <= priceAbove200k t ->
   getShippingPrice t ov1 <= getShippingPrice t ov2).
Proof.
  intros Hle. unfold getShippingPrice.
  split; intros H; qle_cases; lra.
Qed.

(** With item codes unique in the collection (the schema's [unique]), the
    endpoint and the static helper both charge the fee of the item's own
    table whenever that table is active. *)
Theorem shipping_lookup_unique_code (db : list shipPrice) (t : shipPrice) (code : Z) (v : Q) :
  NoDup (map spItemCode db) -> In t db -> spItemCode t = code -> spIsActive t = true ->
  getShippingPriceCtl db (Some code) (Some v) = Ok200 (getShippingPrice t v) /\
  getShippingPriceForOrder db code v = getShippingPrice t v.
Proof.
  intros Hnd Hin Hc Ha. pose proof (findActive_unique db t code Hnd Hin Hc Ha) as Hf.
  unfold getShippingPriceCtl, getShippingPriceForOrder. rewrite Hf. split; reflexivity.
Qed.

End ShippingFacts.

Module PricingFacts.

Import Pricing.
Open Scope Q_scope.

(** A price that passes validation is saved with totalPrice equal to its
    priceWithTax, unitPrice plus unitPrice * tax / 100, which is never
    below its unitPrice; an invalid one (a negative unitPrice or tax) is
    not saved. *)
Theorem savePrice_total (p p' : inventoryPrice) :
  savePrice p = Some p' ->
  totalPrice p' = priceWithTax p' /\ unitPrice p' = unitPrice p /\ tax p' = tax p /\
  unitPrice p <= totalPrice p'.
Proof.
  unfold savePrice. destruct (price_validate p) eqn:Hv; [|discriminate].
  intros H. injection H as <-.
  unfold price_validate in Hv. rewrite !andb_true_iff in Hv.
  destruct Hv as [[[[[[[Hu _] _] _] _] _] _] Ht].
  apply Qle_bool_iff in Hu, Ht.
  split; [reflexivity|]. split; [reflexivity|]. split; [reflexivity|].
  simpl. assert (0 <= unitPrice p * tax p / 100).
  { unfold Qdiv. apply Qmult_le_0_compat; [nra|]. apply Qinv_le_0_compat. lra. }
  lra.
Qed.

(** The totalPrice default (unitPrice + tax) never survives a save: the
    pre('save') hook replaces it, and the two agree only when tax is 0 or
    unitPrice is 100. *)
Theorem savePrice_overrides_default (p p' : inventoryPrice) :
  savePrice p = Some p' ->
  (totalPrice p' == totalPrice_default p <-> tax p == 0 \/ unitPrice p == 100).
Proof.
  unfold savePrice. destruct (price_validate p); [|discriminate].
  intros H. injection H as <-. unfold totalPrice_default. simpl.
  split.
  - intros H.
    assert (Hk : (unitPrice p - 100) * tax p == 0).
    { setoid_replace ((unitPrice p - 100) * tax p)
        with (100 * ((unitPrice p + unitPrice p * tax p / 100) - (unitPrice p + tax p)))
        by field.
      rewrite H. ring. }
    apply Qmult_integral in Hk as [Hk|Hk]; [right|left]; lra.
  - intros H.
    assert (Hk : (unitPrice p - 100) * tax p == 0)
      by (destruct H as [H|H]; rewrite H; ring).
    setoid_replace (unitPrice p * tax p / 100)
      with (tax p + (unitPrice p - 100) * tax p / 100) by field.
    rewrite Hk. field.
Qed.

End PricingFacts.

Module ExtraWitnesses.

Open Scope Q_scope.

Lemma canAccess_by_role_witness :
  Access.canAccess 5 false (Access.mkUser "vendor" 5) = true /\
  Access.canAccess 5 true (Access.mkUser "vendor" 6) = false /\
  Access.canAccess 5 false (Access.mkUser "customer" 6) = false /\
  Access.canAccess 5 true (Access.mkUser "guest" 6) = false.
Proof.
  split; [|split; [|split]].
  - apply (proj1 (proj2 (AccessFacts.canAccess_by_role 5 false (Access.mkUser "vendor" 5)))).
    reflexivity.
  - apply (proj1 (proj2 (AccessFacts.canAccess_by_role 5 true (Access.mkUser "vendor" 6)))).
    reflexivity.
  - apply (proj1 (proj2 (proj2 (AccessFacts.canAccess_by_role 5 false
                                  (Access.mkUser "customer" 6))))).
    right. reflexivity.
  - apply (proj2 (proj2 (proj2 (AccessFacts.canAccess_by_role 5 true
                               (Access.mkUser "guest" 6))))).
    simpl. intros [H|[H|[H|[H|[H|[]]]]]]; discriminate.
Defined.

Lemma getShippingPrice_monotone_witness :
  Shipping.getShippingPrice Samples.ship_table 120000 <=
  Shipping.getShippingPrice Samples.ship_table 30000.
Proof.
  apply (proj1 (ShippingFacts.getShippingPrice_monotone Samples.ship_table 30000 120000
                  ltac:(lra))).
  simpl. lra.
Defined.

Lemma shipping_lookup_unique_code_witness :
  Shipping.getShippingPriceCtl
    [Shipping.mkShipPrice 8 5 5 5 5 5 true; Samples.ship_table] (Some 7%Z) (Some 60000) =
  Shipping.Ok200 (Shipping.getShippingPrice Samples.ship_table 60000).
Proof.
  assert (Hnd : NoDup (map Shipping.spItemCode
                  [Shipping.mkShipPrice 8 5 5 5 5 5 true; Samples.ship_table])).
  { simpl. constructor; [simpl; lia|]. constructor; [simpl; tauto|constructor]. }
  exact (proj1 (ShippingFacts.shipping_lookup_unique_code
                  [Shipping.mkShipPrice 8 5 5 5 5 5 true; Samples.ship_table]
                  Samples.ship_table 7 60000 Hnd (or_intror (or_introl eq_refl))
                  eq_refl eq_refl)).
Defined.

Lemma savePrice_total_witness :
  exists p', Pricing.savePrice Samples2.price_18 = Some p' /\
             Pricing.unitPrice Samples2.price_18 <= Pricing.totalPrice p'.
Proof.
  eexists. split; [reflexivity|].
  apply (PricingFacts.savePrice_total Samples2.price_18). reflexivity.
Defined.

Lemma savePrice_overrides_default_witness :
  exists p', Pricing.savePrice Samples2.price_18 = Some p' /\
             ~ Pricing.totalPrice p' == Pricing.totalPrice_default Samples2.price_18.
Proof.
  eexists. split; [reflexivity|]. intros H.
  apply (PricingFacts.savePrice_overrides_default Samples2.price_18 _ eq_refl) in H.
  destruct H as [H|H]; vm_compute in H; discriminate.
Defined.

End ExtraWitnesses.
